(** * Bookmarks API: a shallow embedding of the service layer

    The development follows the repository's layering.

    - [JsValue], [JsObject]: the run-time values the services receive
      (request payloads, the identity attached to a request).  An object is
      the finite map of its properties; numbers are the integers used for
      ids and integer columns.
    - [Promise]: an [async] function is a state transformer that either
      returns a value or throws an [Exception].
    - [Db] and the [bookmark_*] / [user_*] delegates: the persistence
      collaborator (the ORM client over its two tables), with the
      primary key and the owner reference of the bookmark table and the
      unique email of the user table.
    - [getBookmarks] ... [deleteBookmarkById]: the bookmark service.
    - [GetUser]: the parameter decorator that hands the caller identity to
      the handlers.
    - [signup], [signin]: the auth service over its four injected
      interfaces, with [PrismaUserRepository_create],
      [ArgonPasswordHashingService] and [JwtTokenService] as the
      implementations the repository gives.
    - [Plan]: the bookmark repository and the bookmark service of the
      decoupling plan, with their own exceptions. *)

From Stdlib Require Import ZArith String List Lia.
From stdpp Require Import base gmap strings list pretty.

Open Scope string_scope.
Open Scope Z_scope.

(** ** JavaScript values and objects

    A string comes with the reading the storage client makes of it when
    it is put in a date column: [JDateStr s t] is the string [s] that
    reads as the instant [t], [JStr s] a string that reads as no date. *)

Inductive JsValue : Type :=
| JUndefined
| JNull
| JBool (b : bool)
| JNum (n : Z)
| JStr (s : string)
| JDateStr (s : string) (t : Z).

Abbreviation JsObject := (gmap string JsValue).

(** The own property [k] of [o], as the storage client reads the
    columns of its [data] argument: one that is not there reads as
    [undefined]. *)
Definition prop (o : JsObject) (k : string) : JsValue :=
  default JUndefined (o !! k).

(** The members every object inherits from [Object.prototype]. *)
Definition Object_prototype_members : list string :=
  [ "constructor"; "__proto__"; "hasOwnProperty"; "isPrototypeOf";
    "propertyIsEnumerable"; "toLocaleString"; "toString"; "valueOf";
    "__defineGetter__"; "__defineSetter__"; "__lookupGetter__"; "__lookupSetter__" ].

Definition inherited (key : string) : bool :=
  existsb (String.eqb key) Object_prototype_members.

(** [{ ...a, ...b }]: properties are copied left to right, so those of
    [b] overwrite those of [a]. *)
Definition spread (a b : JsObject) : JsObject := b ∪ a.

(** Truthiness of a [string | undefined] argument: only a non-empty
    string is truthy. *)
Definition truthy_string (data : option string) : bool :=
  match data with
  | Some s => negb (String.eqb s "")
  | None => false
  end.

(** ** Exceptions and asynchronous computations *)

Inductive Exception : Type :=
| PrismaClientKnownRequestError (code : string)
| PrismaClientValidationError
| DuplicateEmailException (message : string)
| ForbiddenException (message : string)
| BadRequestException (message : string)
| Error (name : string).

(** The status of the response when the exception leaves a handler: the
    framework maps its own exceptions to their code and everything else
    to 500. *)
Definition getStatus (e : Exception) : Z :=
  match e with
  | ForbiddenException _ => 403
  | BadRequestException _ => 400
  | _ => 500
  end.

(** [new DuplicateEmailException(email)] *)
Definition new_DuplicateEmailException (email : string) : Exception :=
  DuplicateEmailException ("Email " +:+ email +:+ " is already taken").

Inductive Outcome (A : Type) : Type :=
| Returned (a : A)
| Thrown (e : Exception).

Arguments Returned {A} a.
Arguments Thrown {A} e.

Definition Promise (S A : Type) : Type := S → Outcome A * S.

Definition resolve {S A} (a : A) : Promise S A := λ s, (Returned a, s).

Definition throw {S A} (e : Exception) : Promise S A := λ s, (Thrown e, s).

Definition await {S A B} (m : Promise S A) (k : A → Promise S B) : Promise S B :=
  λ s, match m s with
       | (Returned a, s') => k a s'
       | (Thrown e, s') => (Thrown e, s')
       end.

Definition try_catch {S A} (body : Promise S A) (handler : Exception → Promise S A)
  : Promise S A :=
  λ s, match body s with
       | (Returned a, s') => (Returned a, s')
       | (Thrown e, s') => handler e s'
       end.

Notation "'let*' x := m 'in' k" := (await m (λ x, k))
  (at level 10, x name, m at level 100, k at level 200).

(** A computation on one component of a product state. *)
Definition on_fst {S1 S2 A} (m : Promise S1 A) : Promise (S1 * S2) A :=
  λ w, let '(r, s1) := m (fst w) in (r, (s1, snd w)).

Definition on_snd {S1 S2 A} (m : Promise S2 A) : Promise (S1 * S2) A :=
  λ w, let '(r, s2) := m (snd w) in (r, (fst w, s2)).

(** ** Entities *)

Module User.
Record t : Type := mk {
  id : Z;
  email : string;
  hash : string;
  firstName : option string;
  lastName : option string;
  createdAt : Z;
  updatedAt : Z;
}.
End User.

Module Bookmark.
Record t : Type := mk {
  id : Z;
  title : string;
  description : option string;
  link : string;
  userId : Z;
  createdAt : Z;
  updatedAt : Z;
}.
End Bookmark.

(** ** The persistence collaborator *)

(** Modelled from the spec: the storage schema, which is not among the
    sources (ids assigned by the storage on creation, a unique account
    email, creation and update timestamps).  The two tables are kept in
    storage order, with the two id sequences and the storage clock that
    stamps [createdAt] and [updatedAt]. *)
Record Db : Type := mkDb {
  users : list User.t;
  user_seq : Z;
  bookmarks : list Bookmark.t;
  bookmark_seq : Z;
  clock : Z;
}.

(** A [where] filter of the bookmark delegate: an absent field does not
    constrain. *)
Record BookmarkWhere : Type := mkWhere {
  where_id : option Z;
  where_userId : option Z;
}.

Definition matches (w : BookmarkWhere) (r : Bookmark.t) : bool :=
  match where_id w with Some k => Bookmark.id r =? k | None => true end
  && match where_userId w with Some u => Bookmark.userId r =? u | None => true end.

Definition set_bookmarks (db : Db) (rows : list Bookmark.t) (next : Z) : Db :=
  {| users := users db; user_seq := user_seq db;
     bookmarks := rows; bookmark_seq := next; clock := clock db |}.

(** The columns a [data] argument of the bookmark delegate may set. *)
Definition bookmark_columns : gset string :=
  {[ "id"; "title"; "description"; "link"; "userId"; "createdAt"; "updatedAt" ]}.

Definition required_string (v : JsValue) : option string :=
  match v with
  | JStr s | JDateStr s _ => Some s
  | _ => None
  end.

Definition required_int (v : JsValue) : option Z :=
  match v with JNum n => Some n | _ => None end.

Definition required_date (v : JsValue) : option Z :=
  match v with JDateStr _ t => Some t | _ => None end.

(** A nullable column: [undefined] and [null] both store [null]. *)
Definition nullable_string (v : JsValue) : option (option string) :=
  match v with
  | JStr s | JDateStr s _ => Some (Some s)
  | JNull | JUndefined => Some None
  | JBool _ | JNum _ => None
  end.

(** A column that may be left out: an absent or [undefined] property. *)
Definition optional {A} (check : JsValue → option A) (v : JsValue) : option (option A) :=
  match v with
  | JUndefined => Some None
  | _ => Some <$> check v
  end.

Record BookmarkCreateInput : Type := mkCreateInput {
  create_id : option Z;
  create_title : string;
  create_description : option string;
  create_link : string;
  create_userId : Z;
  create_createdAt : option Z;
  create_updatedAt : option Z;
}.

(** Argument validation of [create]: no unknown property, every
    required column present with its type, and the columns the storage
    can fill by itself (id, timestamps) optional. *)
Definition check_create_data (data : JsObject) : option BookmarkCreateInput :=
  if bool_decide (dom data ⊆ bookmark_columns) then
    i ← optional required_int (prop data "id");
    t ← required_string (prop data "title");
    d ← nullable_string (prop data "description");
    l ← required_string (prop data "link");
    u ← required_int (prop data "userId");
    c ← optional required_date (prop data "createdAt");
    m ← optional required_date (prop data "updatedAt");
    Some (mkCreateInput i t d l u c m)
  else None.

(** In an update every column is optional: an absent or [undefined]
    property leaves the column as it is. *)
Record BookmarkUpdateInput : Type := mkUpdateInput {
  update_id : option Z;
  update_title : option string;
  update_description : option (option string);
  update_link : option string;
  update_userId : option Z;
  update_createdAt : option Z;
  update_updatedAt : option Z;
}.

Definition check_update_data (data : JsObject) : option BookmarkUpdateInput :=
  if bool_decide (dom data ⊆ bookmark_columns) then
    i ← optional required_int (prop data "id");
    t ← optional required_string (prop data "title");
    d ← optional nullable_string (prop data "description");
    l ← optional required_string (prop data "link");
    u ← optional required_int (prop data "userId");
    c ← optional required_date (prop data "createdAt");
    m ← optional required_date (prop data "updatedAt");
    Some (mkUpdateInput i t d l u c m)
  else None.

(** An update that sets no column writes nothing. *)
Definition writes_nothing (p : BookmarkUpdateInput) : bool :=
  match p with
  | mkUpdateInput None None None None None None None => true
  | _ => false
  end.

(** The row after an update: the given columns replaced, and the update
    time stamped with the clock unless it is given; a patch that sets
    nothing leaves the row, its update time included, as it is. *)
Definition apply_update (now : Z) (p : BookmarkUpdateInput) (r : Bookmark.t) : Bookmark.t :=
  if writes_nothing p then r
  else
    {| Bookmark.id := default (Bookmark.id r) (update_id p);
       Bookmark.title := default (Bookmark.title r) (update_title p);
       Bookmark.description := default (Bookmark.description r) (update_description p);
       Bookmark.link := default (Bookmark.link r) (update_link p);
       Bookmark.userId := default (Bookmark.userId r) (update_userId p);
       Bookmark.createdAt := default (Bookmark.createdAt r) (update_createdAt p);
       Bookmark.updatedAt := default now (update_updatedAt p) |}.

(** The storage refuses the NUL character in a text column. *)
Definition has_nul (s : string) : bool :=
  existsb (λ c, Ascii.eqb c Ascii.zero) (list_ascii_of_string s).

(** The foreign key of a bookmark: its owner is a stored account. *)
Definition owner_stored (db : Db) (userId : Z) : bool :=
  existsb (λ u, User.id u =? userId) (users db).

(** [prisma.bookmark.findMany({ where })] *)
Definition bookmark_findMany (w : BookmarkWhere) : Promise Db (list Bookmark.t) :=
  λ db, (Returned (List.filter (matches w) (bookmarks db)), db).

(** [prisma.bookmark.findFirst({ where })]: the first matching row, or
    [null]. *)
Definition bookmark_findFirst (w : BookmarkWhere) : Promise Db (option Bookmark.t) :=
  λ db, (Returned (List.find (matches w) (bookmarks db)), db).

(** [prisma.bookmark.create({ data })].  The id is the one given in
    [data], or else the next value of the sequence, which is then
    consumed whether or not the row is stored.  The insertion is refused
    for a NUL character in a text column, for a primary key that is
    already there (P2002), and for an owner that is no stored account
    (P2003). *)
Definition bookmark_create (data : JsObject) : Promise Db Bookmark.t :=
  λ db,
    match check_create_data data with
    | None => (Thrown PrismaClientValidationError, db)
    | Some input =>
        if has_nul (create_title input)
           || has_nul (default "" (create_description input))
           || has_nul (create_link input)
        then (Thrown (Error "PrismaClientUnknownRequestError"), db)
        else
          let k := default (bookmark_seq db) (create_id input) in
          let next :=
            match create_id input with
            | Some _ => bookmark_seq db
            | None => bookmark_seq db + 1
            end in
          if existsb (λ r, Bookmark.id r =? k) (bookmarks db)
          then (Thrown (PrismaClientKnownRequestError "P2002"),
                set_bookmarks db (bookmarks db) next)
          else if negb (owner_stored db (create_userId input))
          then (Thrown (PrismaClientKnownRequestError "P2003"),
                set_bookmarks db (bookmarks db) next)
          else
            let row :=
              {| Bookmark.id := k;
                 Bookmark.title := create_title input;
                 Bookmark.description := create_description input;
                 Bookmark.link := create_link input;
                 Bookmark.userId := create_userId input;
                 Bookmark.createdAt := default (clock db) (create_createdAt input);
                 Bookmark.updatedAt := default (clock db) (create_updatedAt input) |} in
            (Returned row, set_bookmarks db (bookmarks db ++ [row]) next)
    end.

(** A new id for the rows of an update meets the primary key when a row
    that is not updated has it, or when more than one row is updated. *)
Definition key_taken (w : BookmarkWhere) (p : BookmarkUpdateInput)
    (rows : list Bookmark.t) : bool :=
  match update_id p with
  | Some k =>
      existsb (λ x, negb (matches w x) && (Bookmark.id x =? k)) rows
      || (1 <? Z.of_nat (length (List.filter (matches w) rows)))
  | None => false
  end.

(** [prisma.bookmark.update({ where, data })]: P2025 when no row matches
    the filter; then the update is refused for a NUL character in a text
    column, for an id that meets the primary key (P2002) and for a new
    owner that is no stored account (P2003). *)
Definition bookmark_update (w : BookmarkWhere) (data : JsObject) : Promise Db Bookmark.t :=
  λ db,
    match check_update_data data with
    | None => (Thrown PrismaClientValidationError, db)
    | Some patch =>
        match List.find (matches w) (bookmarks db) with
        | None => (Thrown (PrismaClientKnownRequestError "P2025"), db)
        | Some r =>
            if has_nul (default "" (update_title patch))
               || has_nul (default "" (default None (update_description patch)))
               || has_nul (default "" (update_link patch))
            then (Thrown (Error "PrismaClientUnknownRequestError"), db)
            else if key_taken w patch (bookmarks db)
            then (Thrown (PrismaClientKnownRequestError "P2002"), db)
            else if negb (from_option (owner_stored db) true (update_userId patch))
            then (Thrown (PrismaClientKnownRequestError "P2003"), db)
            else
              let rewrite := λ x, if matches w x then apply_update (clock db) patch x else x in
              (Returned (apply_update (clock db) patch r),
               set_bookmarks db (List.map rewrite (bookmarks db)) (bookmark_seq db))
        end
    end.

(** [prisma.bookmark.delete({ where })]: P2025 when no row matches the
    filter; otherwise the deleted row is returned. *)
Definition bookmark_delete (w : BookmarkWhere) : Promise Db Bookmark.t :=
  λ db,
    match List.find (matches w) (bookmarks db) with
    | None => (Thrown (PrismaClientKnownRequestError "P2025"), db)
    | Some r =>
        (Returned r,
         set_bookmarks db (List.filter (λ x, negb (matches w x)) (bookmarks db))
                       (bookmark_seq db))
    end.

(** ** BookmarkService (src/bookmark/bookmark.service.ts) *)

Definition getBookmarks (userId : Z) : Promise Db (list Bookmark.t) :=
  bookmark_findMany {| where_id := None; where_userId := Some userId |}.

Definition getBookmarkById (userId bookmarkId : Z) : Promise Db (option Bookmark.t) :=
  bookmark_findFirst {| where_id := Some bookmarkId; where_userId := Some userId |}.

Definition createBookmark (userId : Z) (dto : JsObject) : Promise Db Bookmark.t :=
  bookmark_create (spread {[ "userId" := JNum userId ]} dto).

Definition editBookmarkById (userId bookmarkId : Z) (dto : JsObject)
  : Promise Db Bookmark.t :=
  bookmark_update {| where_id := Some bookmarkId; where_userId := Some userId |}
                  (spread ∅ dto).

Definition deleteBookmarkById (userId bookmarkId : Z) : Promise Db Bookmark.t :=
  bookmark_delete {| where_id := Some bookmarkId; where_userId := Some userId |}.

(** Modelled from the spec: the payload classes of the bookmark routes
    ([./dto] is not among the sources), a create payload
    [{title, description?, link}] and an edit payload
    [{title?, description?, link?}], with the objects they deserialize
    to. *)
Record CreateBookmarkDto : Type := mkCreateBookmarkDto {
  dto_title : string;
  dto_description : option string;
  dto_link : string;
}.

Definition with_property (k : string) (v : option string) (o : JsObject) : JsObject :=
  match v with
  | Some s => <[k := JStr s]> o
  | None => o
  end.

Definition CreateBookmarkDto_object (d : CreateBookmarkDto) : JsObject :=
  with_property "description" (dto_description d)
    (<["title" := JStr (dto_title d)]> (<["link" := JStr (dto_link d)]> ∅)).

Record EditBookmarkDto : Type := mkEditBookmarkDto {
  edit_title : option string;
  edit_description : option string;
  edit_link : option string;
}.

Definition EditBookmarkDto_object (d : EditBookmarkDto) : JsObject :=
  with_property "title" (edit_title d)
    (with_property "description" (edit_description d)
       (with_property "link" (edit_link d) ∅)).

(** No text of the payload holds a NUL character. *)
Definition create_dto_clean (d : CreateBookmarkDto) : bool :=
  negb (has_nul (dto_title d)
        || has_nul (default "" (dto_description d))
        || has_nul (dto_link d)).

Definition edit_dto_clean (d : EditBookmarkDto) : bool :=
  negb (has_nul (default "" (edit_title d))
        || has_nul (default "" (edit_description d))
        || has_nul (default "" (edit_link d))).

(** What an edit payload asks of the storage: its three columns, and
    nothing about the id, the owner or the timestamps. *)
Definition edit_input (d : EditBookmarkDto) : BookmarkUpdateInput :=
  mkUpdateInput None (edit_title d) (Some <$> edit_description d) (edit_link d)
                None None None.

(** ** GetUser (the identity parameter decorator) *)

(** The request as the decorator sees it: [user] is there once a token
    has been resolved. *)
Record Request : Type := mkRequest {
  user : option JsObject;
}.

(** What the decorator hands to the handler: [null], the value of one
    property, a member inherited from [Object.prototype] (a function, or
    the prototype itself), or the identity object itself. *)
Inductive Extracted : Type :=
| ExNull
| ExValue (v : JsValue)
| ExInherited (member : string)
| ExUser (u : JsObject).

(** [o[key]]: the own property, else the inherited member of that name,
    else [undefined]. *)
Definition get_member (o : JsObject) (key : string) : Extracted :=
  match o !! key with
  | Some v => ExValue v
  | None => if inherited key then ExInherited key else ExValue JUndefined
  end.

Definition GetUser (data : option string) (request : Request) : Extracted :=
  match user request with
  | None => ExNull
  | Some user =>
      if truthy_string data
      then match data with
           | Some key => get_member user key
           | None => ExUser user
           end
      else ExUser user
  end.

(** ** The auth service and its collaborators *)

(** Modelled from the spec: the payload class of the auth routes,
    [{email, password}] ([./dto] is not among the sources). *)
Record AuthDto : Type := mkAuthDto {
  email : string;
  password : string;
}.

Record AccessToken : Type := mkAccessToken {
  access_token : string;
}.

(** The injected interfaces, each with the methods the auth service
    calls.  [S] is the state the implementation works on. *)
Class IUserRepository (S : Type) : Type := {
  userRepository_create : string → string → Promise S User.t;
  userRepository_findByEmail : string → Promise S (option User.t);
}.

Class IPasswordHashingService (S : Type) : Type := {
  passwordHashing_hash : string → Promise S string;
  passwordHashing_verify : string → string → Promise S bool;
}.

Class ITokenService (S : Type) : Type := {
  tokenService_generateAccessToken : Z → string → Promise S string;
}.

Class IValidationService (S : Type) : Type := {
  validationService_validateSignupData : AuthDto → Promise S unit;
}.

(** Modelled from the spec: what the validation service, whose
    implementation is not among the sources, does with a signup payload
    in which the email or the password is empty: it rejects it with a
    validation failure, the framework's 400. *)
Definition rejects_empty_fields {S : Type} (validationService : IValidationService S)
  : Prop :=
  ∀ (dto : AuthDto) (s : S),
    email dto = "" ∨ password dto = "" →
    ∃ message s',
      validationService_validateSignupData dto s
      = (Thrown (BadRequestException message), s').

Section AuthService.
Context {S : Type}.
Context {userRepository : IUserRepository S}.
Context {passwordHashing : IPasswordHashingService S}.
Context {tokenService : ITokenService S}.
Context {validationService : IValidationService S}.

Definition signup (dto : AuthDto) : Promise S AccessToken :=
  let* _ := validationService_validateSignupData dto in
  let* hash := passwordHashing_hash (password dto) in
  try_catch
    (let* user := userRepository_create (email dto) hash in
     let* accessToken :=
       tokenService_generateAccessToken (User.id user) (User.email user) in
     resolve {| access_token := accessToken |})
    (λ error,
       match error with
       | DuplicateEmailException message => throw (ForbiddenException message)
       | _ => throw error
       end).

Definition signin (dto : AuthDto) : Promise S AccessToken :=
  let* user := userRepository_findByEmail (email dto) in
  match user with
  | None => throw (ForbiddenException "Credentials incorrect")
  | Some user =>
      let* pwMatches := passwordHashing_verify (User.hash user) (password dto) in
      if negb pwMatches
      then throw (ForbiddenException "Credentials incorrect")
      else
        let* accessToken :=
          tokenService_generateAccessToken (User.id user) (User.email user) in
        resolve {| access_token := accessToken |}
  end.

(** A run of signup requests, one after the other, whatever each of
    them answers. *)
Definition signups (requests : list AuthDto) (s : S) : S :=
  fold_left (λ s dto, snd (signup dto s)) requests s.
End AuthService.

(** *** The user table *)

Definition set_users (db : Db) (rows : list User.t) (next : Z) : Db :=
  {| users := rows; user_seq := next;
     bookmarks := bookmarks db; bookmark_seq := bookmark_seq db; clock := clock db |}.

(** [prisma.user.create({ data: { email, hash } })]: P2002 when the
    unique email, or the primary key drawn from the sequence, is already
    in the table. *)
Definition user_create (email hash : string) : Promise Db User.t :=
  λ db,
    let k := user_seq db in
    if existsb (λ u, String.eqb (User.email u) email) (users db)
       || existsb (λ u, User.id u =? k) (users db)
    then (Thrown (PrismaClientKnownRequestError "P2002"),
          set_users db (users db) (k + 1))
    else
      let row :=
        {| User.id := k; User.email := email; User.hash := hash;
           User.firstName := None; User.lastName := None;
           User.createdAt := clock db; User.updatedAt := clock db |} in
      (Returned row, set_users db (users db ++ [row]) (k + 1)).

(** [prisma.user.findUnique({ where: { email } })] *)
Definition user_findUnique_email (email : string) : Promise Db (option User.t) :=
  λ db, (Returned (List.find (λ u, String.eqb (User.email u) email) (users db)), db).

(** *** PrismaUserRepository *)

Definition toEntity (prismaUser : User.t) : User.t :=
  User.mk (User.id prismaUser) (User.email prismaUser) (User.hash prismaUser)
          (User.firstName prismaUser) (User.lastName prismaUser)
          (User.createdAt prismaUser) (User.updatedAt prismaUser).

Definition PrismaUserRepository_create (email hash : string) : Promise Db User.t :=
  try_catch
    (let* prismaUser := user_create email hash in
     resolve (toEntity prismaUser))
    (λ error,
       match error with
       | PrismaClientKnownRequestError code =>
           if String.eqb code "P2002"
           then throw (new_DuplicateEmailException email)
           else throw error
       | _ => throw error
       end).

(** *** The services over the libraries they wrap *)

Record JwtPayload : Type := mkJwtPayload {
  sub : Z;
  payload_email : string;
}.

Record JwtSignOptions : Type := mkJwtSignOptions {
  expiresIn : string;
  secret : option string;
}.

Section Implementations.
(** The state of the libraries (entropy for salts, wall clock) and
    their entry points. *)
Variable E : Type.
Variable argon_hash : string → Promise E string.
Variable argon_verify : string → string → Promise E bool.
Variable jwt_signAsync : JwtPayload → JwtSignOptions → Promise E string.
Variable config_get : string → option string.
Variable validateSignupData : AuthDto → Promise E unit.
(** The repository methods the source leaves to be written. *)
Variable findByEmail : string → Promise Db (option User.t).

Definition ArgonPasswordHashingService_hash (password : string) : Promise E string :=
  argon_hash password.

Definition ArgonPasswordHashingService_verify (hash password : string)
  : Promise E bool :=
  argon_verify hash password.

Definition JwtTokenService_generateAccessToken (userId : Z) (email : string)
  : Promise E string :=
  let payload := {| sub := userId; payload_email := email |} in
  jwt_signAsync payload
    {| expiresIn := default "15m" (config_get "JWT_ACCESS_EXPIRES_IN");
       secret := config_get "JWT_ACCESS_SECRET" |}.

(** The providers of the auth module, on the state made of the
    database and of the libraries. *)
#[local] Instance PrismaUserRepository : IUserRepository (Db * E) := {
  userRepository_create email hash := on_fst (PrismaUserRepository_create email hash);
  userRepository_findByEmail email := on_fst (findByEmail email);
}.

#[local] Instance ArgonPasswordHashingService : IPasswordHashingService (Db * E) := {
  passwordHashing_hash password := on_snd (ArgonPasswordHashingService_hash password);
  passwordHashing_verify hash password :=
    on_snd (ArgonPasswordHashingService_verify hash password);
}.

#[local] Instance JwtTokenService : ITokenService (Db * E) := {
  tokenService_generateAccessToken userId email :=
    on_snd (JwtTokenService_generateAccessToken userId email);
}.

#[local] Instance AuthValidationService : IValidationService (Db * E) := {
  validationService_validateSignupData dto := on_snd (validateSignupData dto);
}.

Definition AuthService_signup : AuthDto → Promise (Db * E) AccessToken := signup.
Definition AuthService_signin : AuthDto → Promise (Db * E) AccessToken := signin.
Definition AuthService_signups : list AuthDto → Db * E → Db * E := signups.
End Implementations.

(** ** The bookmark repository and service of the decoupling plan *)

Module Plan.

(** What this layer throws: its domain exception, the framework's
    not-found, and whatever comes from the layers below. *)
Inductive Failure : Type :=
| UnauthorizedBookmarkAccessException (message : string)
| NotFoundException (message : string)
| Below (e : Exception).

(** [new UnauthorizedBookmarkAccessException(userId, bookmarkId)].  How
    the template prints a number is the language's business and is taken
    as given: [number_toString]. *)
Definition new_UnauthorizedBookmarkAccessException (number_toString : Z → string)
    (userId bookmarkId : Z) : Failure :=
  UnauthorizedBookmarkAccessException
    ("User " +:+ number_toString userId +:+ " is not authorized to access bookmark "
     +:+ number_toString bookmarkId).

Inductive Settled (A : Type) : Type :=
| Fulfilled (a : A)
| Rejected (f : Failure).

Arguments Fulfilled {A} a.
Arguments Rejected {A} f.

Definition Task (S A : Type) : Type := S → Settled A * S.

Definition fulfil {S A} (a : A) : Task S A := λ s, (Fulfilled a, s).

Definition reject {S A} (f : Failure) : Task S A := λ s, (Rejected f, s).

Definition await {S A B} (m : Task S A) (k : A → Task S B) : Task S B :=
  λ s, match m s with
       | (Fulfilled a, s') => k a s'
       | (Rejected f, s') => (Rejected f, s')
       end.

(** [try { await ... } catch (error) { ... }] *)
Definition try_catch {S A} (body : Task S A) (handler : Failure → Task S A) : Task S A :=
  λ s, match body s with
       | (Fulfilled a, s') => (Fulfilled a, s')
       | (Rejected f, s') => handler f s'
       end.

(** [try { return task } catch (error) { ... }] in an [async] function:
    the task is handed back without being awaited, so the [catch] clause
    only sees what is thrown while the call is made, and an [async]
    method throws nothing then; a rejection of the task passes by the
    handler. *)
Definition try_return {S A} (task : Task S A) (handler : Failure → Task S A)
  : Task S A :=
  task.

(** A call into the storage client. *)
Definition of_promise {S A} (m : Promise S A) : Task S A :=
  λ s, match m s with
       | (Returned a, s') => (Fulfilled a, s')
       | (Thrown e, s') => (Rejected (Below e), s')
       end.

Notation "'let!' x := m 'in' k" := (await m (λ x, k))
  (at level 10, x name, m at level 100, k at level 200).

(** *** PrismaBookmarkRepository *)

Definition toEntity (prismaBookmark : Bookmark.t) : Bookmark.t :=
  Bookmark.mk (Bookmark.id prismaBookmark) (Bookmark.title prismaBookmark)
              (Bookmark.description prismaBookmark) (Bookmark.link prismaBookmark)
              (Bookmark.userId prismaBookmark) (Bookmark.createdAt prismaBookmark)
              (Bookmark.updatedAt prismaBookmark).

Definition findByIdAndUserId (id userId : Z) : Task Db (option Bookmark.t) :=
  let! prismaBookmark :=
    of_promise (bookmark_findFirst {| where_id := Some id; where_userId := Some userId |}) in
  fulfil match prismaBookmark with
         | Some prismaBookmark => Some (toEntity prismaBookmark)
         | None => None
         end.

(** [delete(id, userId)]: the ownership is checked by the lookup, the
    row is then deleted by its id alone. *)
Definition delete (number_toString : Z → string) (id userId : Z) : Task Db unit :=
  let! bookmark := findByIdAndUserId id userId in
  match bookmark with
  | None => reject (new_UnauthorizedBookmarkAccessException number_toString userId id)
  | Some _ =>
      let! _ := of_promise (bookmark_delete {| where_id := Some id; where_userId := None |}) in
      fulfil tt
  end.

(** *** The interfaces and the service *)

Class IBookmarkRepository (S : Type) : Type := {
  bookmarkRepository_findByUserId : Z → Task S (list Bookmark.t);
  bookmarkRepository_findByIdAndUserId : Z → Z → Task S (option Bookmark.t);
  bookmarkRepository_create : Z → string → option string → string → Task S Bookmark.t;
  bookmarkRepository_update : Z → Z → EditBookmarkDto → Task S Bookmark.t;
  bookmarkRepository_delete : Z → Z → Task S unit;
}.

Class IValidationService (S : Type) : Type := {
  validationService_validateBookmarkData : JsObject → Task S unit;
}.

(** The translation both [catch] clauses of the service write. *)
Definition unauthorized_as_forbidden {S A} (error : Failure) : Task S A :=
  match error with
  | UnauthorizedBookmarkAccessException message =>
      reject (Below (ForbiddenException message))
  | _ => reject error
  end.

Section BookmarkService.
Context {S : Type}.
Context {bookmarkRepository : IBookmarkRepository S}.
Context {validationService : IValidationService S}.

Definition getBookmarks (userId : Z) : Task S (list Bookmark.t) :=
  bookmarkRepository_findByUserId userId.

Definition getBookmarkById (userId bookmarkId : Z) : Task S Bookmark.t :=
  let! bookmark := bookmarkRepository_findByIdAndUserId bookmarkId userId in
  match bookmark with
  | None => reject (NotFoundException "Bookmark not found")
  | Some bookmark => fulfil bookmark
  end.

Definition createBookmark (userId : Z) (dto : CreateBookmarkDto) : Task S Bookmark.t :=
  let! _ := validationService_validateBookmarkData (CreateBookmarkDto_object dto) in
  bookmarkRepository_create userId (dto_title dto) (dto_description dto) (dto_link dto).

Definition editBookmarkById (userId bookmarkId : Z) (dto : EditBookmarkDto)
  : Task S Bookmark.t :=
  let! _ := validationService_validateBookmarkData (EditBookmarkDto_object dto) in
  try_return (bookmarkRepository_update bookmarkId userId dto)
             unauthorized_as_forbidden.

Definition deleteBookmarkById (userId bookmarkId : Z) : Task S unit :=
  try_catch
    (let! _ := bookmarkRepository_delete bookmarkId userId in
     fulfil tt)
    unauthorized_as_forbidden.
End BookmarkService.

(** The repository as a provider: the methods the plan writes out, and
    the ones it leaves to be written as parameters. *)
Definition PrismaBookmarkRepository
    (number_toString : Z → string)
    (findByUserId : Z → Task Db (list Bookmark.t))
    (create : Z → string → option string → string → Task Db Bookmark.t)
    (update : Z → Z → EditBookmarkDto → Task Db Bookmark.t)
  : IBookmarkRepository Db :=
  {| bookmarkRepository_findByUserId := findByUserId;
     bookmarkRepository_findByIdAndUserId := findByIdAndUserId;
     bookmarkRepository_create := create;
     bookmarkRepository_update := update;
     bookmarkRepository_delete := delete number_toString |}.

(** *** Mocked dependencies

    The ids of the samples are small integers, which print in decimal. *)

Definition mock_findByUserId (userId : Z) : Task Db (list Bookmark.t) :=
  of_promise (bookmark_findMany {| where_id := None; where_userId := Some userId |}).

Definition mock_create (userId : Z) (title : string) (description : option string)
    (link : string) : Task Db Bookmark.t :=
  of_promise (bookmark_create
                (spread {[ "userId" := JNum userId ]}
                        (CreateBookmarkDto_object
                           (mkCreateBookmarkDto title description link)))).

Definition mock_update (id userId : Z) (data : EditBookmarkDto) : Task Db Bookmark.t :=
  let! bookmark := findByIdAndUserId id userId in
  match bookmark with
  | None => reject (new_UnauthorizedBookmarkAccessException pretty userId id)
  | Some _ =>
      of_promise (bookmark_update {| where_id := Some id; where_userId := None |}
                                  (EditBookmarkDto_object data))
  end.

Definition mock_repository : IBookmarkRepository Db :=
  PrismaBookmarkRepository pretty mock_findByUserId mock_create mock_update.

Definition mock_validation : IValidationService Db :=
  {| validationService_validateBookmarkData := λ _, fulfil tt |}.

End Plan.

(** Every stored id has been drawn from its sequence. *)
Definition sequenced (db : Db) : Prop :=
  (∀ r, r ∈ bookmarks db → Bookmark.id r < bookmark_seq db)
  ∧ (∀ u, u ∈ users db → User.id u < user_seq db).

(** The primary key of the bookmark table: no id is stored twice, and
    every stored id has been drawn from the sequence. *)
Definition bookmark_keys (db : Db) : Prop :=
  NoDup (List.map Bookmark.id (bookmarks db))
  ∧ ∀ r, r ∈ bookmarks db → Bookmark.id r < bookmark_seq db.

(** The account with this email is in the user table. *)
Definition registered (email : string) (db : Db) : Prop :=
  ∃ u, u ∈ users db ∧ User.email u = email.

(** *** Mocked dependencies

    Deterministic stand-ins for the libraries, as the service tests
    inject them; their state is [unit]. *)

Definition mock_argon_hash (password : string) : Promise unit string :=
  resolve ("$argon2id$" +:+ password).

Definition mock_argon_verify (hash password : string) : Promise unit bool :=
  resolve (String.eqb hash ("$argon2id$" +:+ password)).

Definition mock_jwt_signAsync (payload : JwtPayload) (options : JwtSignOptions)
  : Promise unit string :=
  resolve (payload_email payload +:+ "." +:+ expiresIn options).

Definition mock_config_get (key : string) : option string := None.

Definition mock_validateSignupData (dto : AuthDto) : Promise unit unit :=
  if String.eqb (email dto) "" || String.eqb (password dto) ""
  then throw (BadRequestException "email and password should not be empty")
  else resolve tt.

Definition mock_signup : AuthDto → Promise (Db * unit) AccessToken :=
  AuthService_signup unit mock_argon_hash mock_argon_verify mock_jwt_signAsync
                     mock_config_get mock_validateSignupData user_findUnique_email.

Definition mock_signups : list AuthDto → Db * unit → Db * unit :=
  AuthService_signups unit mock_argon_hash mock_argon_verify mock_jwt_signAsync
                      mock_config_get mock_validateSignupData user_findUnique_email.

Definition mock_signin : AuthDto → Promise (Db * unit) AccessToken :=
  AuthService_signin unit mock_argon_hash mock_argon_verify mock_jwt_signAsync
                     mock_config_get user_findUnique_email.

(** ** Sample data: the scenario of the end-to-end suite *)

Definition test_user : User.t :=
  User.mk 1 "test@test.com" "$argon2id$123456" None None 5 5.

Definition test_bookmark : Bookmark.t :=
  Bookmark.mk 1 "Test bookmark" (Some "Test description") "https://test.com" 1 7 7.

Definition test_db : Db :=
  {| users := [test_user]; user_seq := 2;
     bookmarks := [test_bookmark]; bookmark_seq := 2; clock := 9 |}.

Definition test_create_dto : CreateBookmarkDto :=
  mkCreateBookmarkDto "Test bookmark" (Some "Test description") "https://test.com".

Definition test_edit_dto : EditBookmarkDto :=
  mkEditBookmarkDto (Some "Updated test bookmark") (Some "Updated test description")
                    (Some "https://updated-test.com").

(** The same database with a second account. *)
Definition other_user : User.t :=
  User.mk 2 "other@test.com" "$argon2id$abcdef" None None 6 6.

Definition shared_db : Db :=
  {| users := [test_user; other_user]; user_seq := 3;
     bookmarks := [test_bookmark]; bookmark_seq := 2; clock := 9 |}.

(** A token library that fails to sign. *)
Definition failing_jwt_signAsync (payload : JwtPayload) (options : JwtSignOptions)
  : Promise unit string :=
  throw (Error "JsonWebTokenError").

(** A user table whose sequence has fallen behind the stored ids. *)
Definition stale_db : Db :=
  {| users := [test_user]; user_seq := 1;
     bookmarks := []; bookmark_seq := 1; clock := 9 |}.

(** The identity the token strategy attaches to a request. *)
Definition test_identity : JsObject :=
  <["id" := JNum 1]> (<["email" := JStr "test@test.com"]> ∅).

(** * Properties *)

(** ** Lists of rows *)

Section Rows.
Context {A : Type}.
Implicit Types (f : A → bool) (l : list A).

Lemma find_none_elem_of f l :
  List.find f l = None ↔ ∀ x, x ∈ l → f x = false.
Proof.
  induction l as [|y l IH]; simpl.
  - split; [intros _ x Hx; inversion Hx | done].
  - destruct (f y) eqn:Hy.
    + split; [done|]. intros H. rewrite (H y) in Hy; [done | left].
    + rewrite IH. split.
      * intros H x Hx. apply elem_of_cons in Hx as [->|Hx]; auto.
      * intros H x Hx. apply H. by right.
Qed.

Lemma find_some_elem_of f l x :
  List.find f l = Some x → x ∈ l ∧ f x = true.
Proof.
  intros H. apply List.find_some in H as [Hin Hf].
  split; [by apply list_elem_of_In | done].
Qed.

Lemma find_snoc_fresh f l x :
  List.find f l = None → f x = true → List.find f (l ++ [x]) = Some x.
Proof.
  induction l as [|y l IH]; simpl; intros Hl Hx.
  - by rewrite Hx.
  - destruct (f y); [done | auto].
Qed.

Lemma find_filter_negb f l :
  List.find f (List.filter (λ x, negb (f x)) l) = None.
Proof.
  apply find_none_elem_of. intros x Hx.
  apply list_elem_of_In, List.filter_In in Hx as [_ Hx].
  by apply negb_true_iff.
Qed.

Lemma existsb_false_elem_of f l :
  existsb f l = false ↔ ∀ x, x ∈ l → f x = false.
Proof.
  induction l as [|y l IH]; simpl.
  - split; [intros _ x Hx; inversion Hx | done].
  - rewrite orb_false_iff, IH. split.
    + intros [Hy H] x Hx. apply elem_of_cons in Hx as [->|Hx]; auto.
    + intros H. split; [apply H; left | intros x Hx; apply H; by right].
Qed.
End Rows.

(** ** The bookmark delegate *)

Lemma matches_both (K A : Z) (r : Bookmark.t) :
  matches {| where_id := Some K; where_userId := Some A |} r = true
  ↔ Bookmark.id r = K ∧ Bookmark.userId r = A.
Proof. unfold matches; simpl. rewrite andb_true_iff, !Z.eqb_eq. tauto. Qed.

Lemma no_match_find (K A : Z) (rows : list Bookmark.t) :
  (∀ r, r ∈ rows → ¬ (Bookmark.id r = K ∧ Bookmark.userId r = A)) →
  List.find (matches {| where_id := Some K; where_userId := Some A |}) rows = None.
Proof.
  intros H. apply find_none_elem_of. intros r Hr.
  apply not_true_is_false. rewrite matches_both. by apply H.
Qed.

(** What [create] has done when it returns. *)
Lemma bookmark_create_returned (data : JsObject) (db db' : Db) (b : Bookmark.t) :
  bookmark_create data db = (Returned b, db') →
  ∃ input,
    check_create_data data = Some input
    ∧ b = Bookmark.mk (default (bookmark_seq db) (create_id input))
                      (create_title input) (create_description input)
                      (create_link input) (create_userId input)
                      (default (clock db) (create_createdAt input))
                      (default (clock db) (create_updatedAt input))
    ∧ (∀ r, r ∈ bookmarks db →
            Bookmark.id r ≠ default (bookmark_seq db) (create_id input))
    ∧ db' = set_bookmarks db (bookmarks db ++ [b])
              match create_id input with
              | Some _ => bookmark_seq db
              | None => bookmark_seq db + 1
              end.
Proof.
  unfold bookmark_create. intros H.
  destruct (check_create_data data) as [input|]; [|done].
  destruct (_ || _); [done|].
  destruct (existsb _ _) eqn:Hfresh; [done|].
  destruct (negb _); [done|].
  injection H as <- <-. exists input. repeat split.
  intros r Hr. eapply existsb_false_elem_of in Hfresh; [|done].
  by apply Z.eqb_neq.
Qed.

(** What [create] has checked when it returns. *)
Lemma bookmark_create_checked (data : JsObject) (db db' : Db) (b : Bookmark.t) :
  bookmark_create data db = (Returned b, db') →
  owner_stored db (Bookmark.userId b) = true
  ∧ has_nul (Bookmark.title b) = false
  ∧ has_nul (Bookmark.link b) = false.
Proof.
  unfold bookmark_create. intros H.
  destruct (check_create_data data) as [input|]; [|done].
  destruct (_ || _) eqn:Hnul; [done|].
  destruct (existsb _ _); [done|].
  destruct (negb _) eqn:Howner; [done|].
  injection H as <- <-. simpl.
  apply orb_false_iff in Hnul as [Hnul Hlink].
  apply orb_false_iff in Hnul as [Htitle _].
  by apply negb_false_iff in Howner.
Qed.

Lemma check_create_data_userId (data : JsObject) (input : BookmarkCreateInput) :
  check_create_data data = Some input →
  data !! "userId" = Some (JNum (create_userId input)).
Proof.
  unfold check_create_data, prop. intros H.
  case_bool_decide; [|done]. simplify_option_eq.
  destruct (data !! "userId") as [[]|]; by simplify_eq/=.
Qed.

Lemma check_create_data_id (data : JsObject) (input : BookmarkCreateInput) :
  check_create_data data = Some input →
  data !! "id" = None →
  create_id input = None.
Proof.
  unfold check_create_data, prop. intros H Hid.
  case_bool_decide; [|done]. rewrite Hid in H. by simplify_option_eq.
Qed.

Lemma check_create_data_timestamps (data : JsObject) (input : BookmarkCreateInput) :
  check_create_data data = Some input →
  (data !! "createdAt" = None → create_createdAt input = None)
  ∧ (data !! "updatedAt" = None → create_updatedAt input = None).
Proof.
  unfold check_create_data, prop. intros H.
  case_bool_decide; [|done]. split; intros Hnone; rewrite Hnone in H;
    by simplify_option_eq.
Qed.

(** The payload of the create route passes the argument validation, and
    [userId] is the one the service put in front of the spread. *)
Lemma check_create_data_dto (userId : Z) (d : CreateBookmarkDto) :
  check_create_data (spread {[ "userId" := JNum userId ]} (CreateBookmarkDto_object d))
  = Some (mkCreateInput None (dto_title d) (dto_description d) (dto_link d) userId
                        None None).
Proof. destruct d as [t [de|] l]; vm_compute; reflexivity. Qed.

Lemma check_update_data_dto (d : EditBookmarkDto) :
  is_Some (check_update_data (spread ∅ (EditBookmarkDto_object d))).
Proof. destruct d as [[t|] [de|] [l|]]; vm_compute; eauto. Qed.

(** ** The bookmark service *)

(** C1. When no bookmark has both the id [K] and the owner [A] (in
    particular when bookmark [K] belongs to another account),
    [getBookmarkById A K] answers [null], the not-found indication, and so
    never the data of that bookmark. *)
Theorem getBookmarkById_not_found (A K : Z) (db : Db) :
  (∀ r, r ∈ bookmarks db → ¬ (Bookmark.id r = K ∧ Bookmark.userId r = A)) →
  getBookmarkById A K db = (Returned None, db).
Proof.
  intros H. unfold getBookmarkById, bookmark_findFirst.
  by rewrite no_match_find.
Qed.

Lemma getBookmarkById_not_found_witness :
  test_bookmark ∈ bookmarks test_db
  ∧ Bookmark.id test_bookmark = 1
  ∧ Bookmark.userId test_bookmark ≠ 2
  ∧ getBookmarkById 2 1 test_db = (Returned None, test_db).
Proof.
  split; [left|]. split; [reflexivity|]. split; [discriminate|].
  apply (getBookmarkById_not_found 2 1 test_db).
  intros r Hr [_ Howner]. apply list_elem_of_singleton in Hr. subst r.
  discriminate.
Defined.

(** Whatever [getBookmarkById] hands out is a stored row with the asked id
    and the caller as owner. *)
Lemma getBookmarkById_found (A K : Z) (db db' : Db) (b : Bookmark.t) :
  getBookmarkById A K db = (Returned (Some b), db') →
  b ∈ bookmarks db ∧ Bookmark.id b = K ∧ Bookmark.userId b = A ∧ db' = db.
Proof.
  unfold getBookmarkById, bookmark_findFirst. intros H.
  injection H as H <-. apply find_some_elem_of in H as [Hin Hm].
  apply matches_both in Hm. tauto.
Qed.

(** C2. When no bookmark has both the id [K] and the owner [A], editing
    and deleting it as [A] both fail with the record-not-found error of the
    persistence layer (P2025), and the whole database, so every stored
    bookmark, stays as it was. *)
Theorem edit_delete_not_found (A K : Z) (patch : EditBookmarkDto) (db : Db) :
  (∀ r, r ∈ bookmarks db → ¬ (Bookmark.id r = K ∧ Bookmark.userId r = A)) →
  editBookmarkById A K (EditBookmarkDto_object patch) db
  = (Thrown (PrismaClientKnownRequestError "P2025"), db)
  ∧ deleteBookmarkById A K db
    = (Thrown (PrismaClientKnownRequestError "P2025"), db).
Proof.
  intros H. apply no_match_find in H.
  unfold editBookmarkById, deleteBookmarkById, bookmark_update, bookmark_delete.
  destruct (check_update_data_dto patch) as [p ->].
  by rewrite H.
Qed.

Lemma edit_delete_not_found_witness :
  test_bookmark ∈ bookmarks test_db
  ∧ Bookmark.id test_bookmark = 1
  ∧ editBookmarkById 2 1 (EditBookmarkDto_object test_edit_dto) test_db
    = (Thrown (PrismaClientKnownRequestError "P2025"), test_db)
  ∧ deleteBookmarkById 2 1 test_db
    = (Thrown (PrismaClientKnownRequestError "P2025"), test_db).
Proof.
  split; [left|]. split; [reflexivity|].
  apply (edit_delete_not_found 2 1 test_edit_dto test_db).
  intros r Hr [_ Howner]. apply list_elem_of_singleton in Hr. subst r.
  discriminate.
Defined.

(** A failing edit or delete leaves the database alone whatever object is
    sent as the patch. *)
Lemma editBookmarkById_thrown_unchanged (A K : Z) (dto : JsObject) (db db' : Db) e :
  editBookmarkById A K dto db = (Thrown e, db') → db' = db.
Proof.
  unfold editBookmarkById, bookmark_update. intros H.
  destruct (check_update_data _); [|by injection H].
  destruct (List.find _ _); [|by injection H].
  destruct (_ || _); [by injection H|].
  destruct (key_taken _ _ _); [by injection H|].
  destruct (negb _); [by injection H | done].
Qed.

Lemma deleteBookmarkById_thrown_unchanged (A K : Z) (db db' : Db) e :
  deleteBookmarkById A K db = (Thrown e, db') → db' = db.
Proof.
  unfold deleteBookmarkById, bookmark_delete. intros H.
  destruct (List.find _ _); [done | by injection H].
Qed.

(** C7. When [createBookmark] returns a bookmark for a payload of the
    create route, that bookmark is new (no stored bookmark had its id, and
    the caller could not read it before), it is stored at the end of the
    table under the caller's account, reading it back by its id as the same
    account returns it, and its title, description and link are those of
    the payload. *)
Theorem create_then_get (A : Z) (dto : CreateBookmarkDto) (db db' : Db) (b : Bookmark.t) :
  createBookmark A (CreateBookmarkDto_object dto) db = (Returned b, db') →
  getBookmarkById A (Bookmark.id b) db' = (Returned (Some b), db')
  ∧ Bookmark.title b = dto_title dto
  ∧ Bookmark.description b = dto_description dto
  ∧ Bookmark.link b = dto_link dto
  ∧ Bookmark.userId b = A
  ∧ (∀ r, r ∈ bookmarks db → Bookmark.id r ≠ Bookmark.id b)
  ∧ getBookmarkById A (Bookmark.id b) db = (Returned None, db)
  ∧ bookmarks db' = (bookmarks db ++ [b])%list.
Proof.
  unfold createBookmark. intros H.
  apply bookmark_create_returned in H as (input & Hin & -> & Hfresh & ->).
  rewrite check_create_data_dto in Hin. injection Hin as <-. simpl in *.
  assert (List.find (matches {| where_id := Some (bookmark_seq db);
                                where_userId := Some A |}) (bookmarks db) = None)
    as Hnone.
  { apply find_none_elem_of. intros r Hr. apply not_true_is_false.
    rewrite matches_both. intros [Hid _]. by apply (Hfresh r). }
  split; [|repeat split; try done].
  - unfold getBookmarkById, bookmark_findFirst. simpl. f_equal. f_equal.
    apply find_snoc_fresh; [done | by apply matches_both].
  - unfold getBookmarkById, bookmark_findFirst. simpl. by rewrite Hnone.
Qed.

Lemma create_then_get_witness :
  ∃ b db',
    createBookmark 1 (CreateBookmarkDto_object test_create_dto) test_db = (Returned b, db')
    ∧ getBookmarkById 1 (Bookmark.id b) db' = (Returned (Some b), db')
    ∧ Bookmark.title b = "Test bookmark"
    ∧ Bookmark.description b = Some "Test description"
    ∧ Bookmark.link b = "https://test.com"
    ∧ Bookmark.userId b = 1
    ∧ (∀ r, r ∈ bookmarks test_db → Bookmark.id r ≠ Bookmark.id b)
    ∧ getBookmarkById 1 (Bookmark.id b) test_db = (Returned None, test_db)
    ∧ bookmarks db' = (bookmarks test_db ++ [b])%list.
Proof.
  eexists _, _. split; [vm_compute; reflexivity|].
  eapply (create_then_get 1 test_create_dto test_db).
  vm_compute; reflexivity.
Defined.

(** The create route's payload is stored whenever the stored ids come
    from the sequence, the caller is a stored account and no text of the
    payload holds a NUL character. *)
Lemma createBookmark_returns (A : Z) (dto : CreateBookmarkDto) (db : Db) :
  (∀ r, r ∈ bookmarks db → Bookmark.id r < bookmark_seq db) →
  owner_stored db A = true →
  has_nul (dto_title dto) = false →
  has_nul (default "" (dto_description dto)) = false →
  has_nul (dto_link dto) = false →
  ∃ b db', createBookmark A (CreateBookmarkDto_object dto) db = (Returned b, db').
Proof.
  intros Hseq Howner Htitle Hdescription Hlink.
  unfold createBookmark, bookmark_create.
  rewrite check_create_data_dto. simpl.
  rewrite Htitle, Hdescription, Hlink, Howner. simpl.
  replace (existsb _ _) with false; [eauto|].
  symmetry. apply existsb_false_elem_of. intros r Hr.
  apply Z.eqb_neq. specialize (Hseq r Hr). lia.
Qed.

(** C8. After [deleteBookmarkById A K] has succeeded, [getBookmarkById A K]
    answers [null]. *)
Theorem delete_then_get (A K : Z) (db db' : Db) (b : Bookmark.t) :
  deleteBookmarkById A K db = (Returned b, db') →
  getBookmarkById A K db' = (Returned None, db').
Proof.
  unfold deleteBookmarkById, bookmark_delete. intros H.
  destruct (List.find _ _); [|done]. injection H as _ <-.
  unfold getBookmarkById, bookmark_findFirst. simpl.
  by rewrite find_filter_negb.
Qed.

Lemma delete_then_get_witness :
  ∃ db',
    deleteBookmarkById 1 1 test_db = (Returned test_bookmark, db')
    ∧ getBookmarkById 1 1 db' = (Returned None, db').
Proof.
  eexists. split; [vm_compute; reflexivity|].
  apply (delete_then_get 1 1 test_db _ test_bookmark).
  vm_compute; reflexivity.
Defined.

(** C9. [createBookmark] stores the row under the caller's account id
    whenever the payload has no [userId] property; the payload being
    spread after [userId], a [userId] property of its own replaces the
    caller's id in the stored row. *)
Theorem createBookmark_owner :
  (∀ (A : Z) (dto : JsObject) (db db' : Db) (b : Bookmark.t),
     dto !! "userId" = None →
     createBookmark A dto db = (Returned b, db') →
     b ∈ bookmarks db' ∧ Bookmark.userId b = A)
  ∧ (∀ (A : Z) (v : JsValue) (dto : JsObject) (db db' : Db) (b : Bookmark.t),
     dto !! "userId" = Some v →
     createBookmark A dto db = (Returned b, db') →
     b ∈ bookmarks db' ∧ JNum (Bookmark.userId b) = v).
Proof.
  split.
  - intros A dto db db' b Hdto H. unfold createBookmark in H.
    apply bookmark_create_returned in H as (input & Hin & Hb & _ & ->).
    apply check_create_data_userId in Hin.
    unfold spread in Hin. rewrite lookup_union_r, lookup_singleton_eq in Hin by done.
    injection Hin as Hin. split.
    + simpl. apply elem_of_app. right. left.
    + by rewrite Hb.
  - intros A v dto db db' b Hdto H. unfold createBookmark in H.
    apply bookmark_create_returned in H as (input & Hin & Hb & _ & ->).
    apply check_create_data_userId in Hin.
    unfold spread in Hin. rewrite (lookup_union_Some_l _ _ _ _ Hdto) in Hin.
    injection Hin as Hin. split.
    + simpl. apply elem_of_app. right. left.
    + by rewrite Hb.
Qed.

Lemma createBookmark_owner_witness :
  (∃ b db',
     createBookmark 1 (CreateBookmarkDto_object test_create_dto) test_db = (Returned b, db')
     ∧ b ∈ bookmarks db' ∧ Bookmark.userId b = 1)
  ∧ (∃ b db',
     createBookmark 1 (<["userId" := JNum 2]> (CreateBookmarkDto_object test_create_dto))
                    shared_db = (Returned b, db')
     ∧ b ∈ bookmarks db' ∧ JNum (Bookmark.userId b) = JNum 2).
Proof.
  split.
  - eexists _, _. split; [vm_compute; reflexivity|].
    eapply (proj1 createBookmark_owner 1 (CreateBookmarkDto_object test_create_dto) test_db);
      vm_compute; reflexivity.
  - eexists _, _. split; [vm_compute; reflexivity|].
    eapply (proj2 createBookmark_owner 1 (JNum 2)
              (<["userId" := JNum 2]> (CreateBookmarkDto_object test_create_dto)) shared_db);
      vm_compute; reflexivity.
Defined.

(** ** The identity extractor *)

Lemma truthy_string_nonempty (key : string) :
  key ≠ "" → truthy_string (Some key) = true.
Proof. intros H. simpl. by apply negb_true_iff, String.eqb_neq. Qed.

(** C10, as the code has it. [GetUser] answers [null] when the request
    has no resolved user, whatever claim is asked; with a user it answers
    the value of the asked claim for a non-empty name; when the identity
    has no such property it answers [undefined], unless the name is that
    of a member inherited from [Object.prototype], which is then what it
    answers; and it answers the identity itself when the name is left out
    or empty. *)
Theorem GetUser_extracts :
  (∀ data, GetUser data {| user := None |} = ExNull)
  ∧ (∀ key u v, key ≠ "" → u !! key = Some v →
       GetUser (Some key) {| user := Some u |} = ExValue v)
  ∧ (∀ key u, key ≠ "" → u !! key = None → inherited key = false →
       GetUser (Some key) {| user := Some u |} = ExValue JUndefined)
  ∧ (∀ key u, u !! key = None → inherited key = true →
       GetUser (Some key) {| user := Some u |} = ExInherited key)
  ∧ (∀ u, GetUser None {| user := Some u |} = ExUser u)
  ∧ (∀ u, GetUser (Some "") {| user := Some u |} = ExUser u).
Proof.
  split; [done|]. split; [|split; [|split; [|done]]].
  - intros key u v Hkey Hv. unfold GetUser. simpl user.
    rewrite (truthy_string_nonempty key Hkey). unfold get_member. by rewrite Hv.
  - intros key u Hkey Hv Hin. unfold GetUser. simpl user.
    rewrite (truthy_string_nonempty key Hkey). unfold get_member. by rewrite Hv, Hin.
  - intros key u Hv Hin. unfold GetUser. simpl user.
    rewrite (truthy_string_nonempty key) by (by intros ->).
    unfold get_member. by rewrite Hv, Hin.
Qed.

Lemma GetUser_extracts_witness :
  GetUser (Some "id") {| user := None |} = ExNull
  ∧ GetUser (Some "id") {| user := Some test_identity |} = ExValue (JNum 1)
  ∧ GetUser (Some "firstName") {| user := Some test_identity |} = ExValue JUndefined
  ∧ GetUser (Some "constructor") {| user := Some test_identity |}
    = ExInherited "constructor"
  ∧ GetUser None {| user := Some test_identity |} = ExUser test_identity
  ∧ GetUser (Some "") {| user := Some test_identity |} = ExUser test_identity.
Proof.
  destruct GetUser_extracts
    as (Hnull & Hclaim & Habsent & Hinherited & Hwhole & Hempty).
  split; [apply Hnull|].
  split; [apply Hclaim; [discriminate | vm_compute; reflexivity]|].
  split; [apply Habsent; [discriminate | vm_compute; reflexivity | reflexivity]|].
  split; [apply Hinherited; [vm_compute; reflexivity | reflexivity]|].
  split; [apply Hwhole | apply Hempty].
Defined.

(** C10, as the claim has it, fails for a claim name that the identity
    does not have and every object inherits: the answer is the inherited
    member and not [undefined]. *)
Lemma GetUser_inherited_member :
  test_identity !! "toString" = None
  ∧ GetUser (Some "toString") {| user := Some test_identity |} = ExInherited "toString"
  ∧ ExInherited "toString" ≠ ExValue JUndefined.
Proof. split; [vm_compute; reflexivity|]. split; [vm_compute; reflexivity | discriminate]. Qed.

(** ** The auth service *)

(** Unfolds one layer of the promise combinators. *)
Ltac run :=
  repeat progress (unfold await, try_catch, on_fst, on_snd, resolve, throw; simpl).

Section AuthServiceProperties.
Context {S : Type}.
Context {userRepository : IUserRepository S}.
Context {passwordHashing : IPasswordHashingService S}.
Context {tokenService : ITokenService S}.
Context {validationService : IValidationService S}.

(** [signin] on an email the repository does not know. *)
Lemma signin_unknown_email (dto : AuthDto) (s s' : S) :
  userRepository_findByEmail (email dto) s = (Returned None, s') →
  signin dto s = (Thrown (ForbiddenException "Credentials incorrect"), s').
Proof. intros H. unfold signin. run. by rewrite H. Qed.

(** [signin] when the password does not verify against the stored hash. *)
Lemma signin_wrong_password (dto : AuthDto) (u : User.t) (s s1 s2 : S) :
  userRepository_findByEmail (email dto) s = (Returned (Some u), s1) →
  passwordHashing_verify (User.hash u) (password dto) s1 = (Returned false, s2) →
  signin dto s = (Thrown (ForbiddenException "Credentials incorrect"), s2).
Proof. intros H1 H2. unfold signin. run. rewrite H1. run. by rewrite H2. Qed.

(** C3. A signin with an email that has no account and a signin with
    the email of an account and a password that does not verify fail with
    the same exception: the same kind and the same message. *)
Theorem signin_failures_indistinguishable
    (unknown known : AuthDto) (u : User.t) (s s1 t t1 t2 : S) :
  userRepository_findByEmail (email unknown) s = (Returned None, s1) →
  userRepository_findByEmail (email known) t = (Returned (Some u), t1) →
  passwordHashing_verify (User.hash u) (password known) t1 = (Returned false, t2) →
  fst (signin unknown s) = Thrown (ForbiddenException "Credentials incorrect")
  ∧ fst (signin known t) = fst (signin unknown s).
Proof.
  intros Hunknown Hknown Hverify.
  rewrite (signin_unknown_email _ _ _ Hunknown).
  by rewrite (signin_wrong_password _ _ _ _ _ Hknown Hverify).
Qed.

(** C5, as the code has it. A signup request in which the email or the
    password is empty is rejected by the auth service itself, with the
    validation failure (400) of its validation service, before anything is
    hashed or stored; [signin] validates nothing: such a request goes to
    the lookup, and fails as wrong credentials (403) when no account has
    its email. *)
Theorem signup_validates_signin_does_not (dto : AuthDto) :
  rejects_empty_fields validationService →
  email dto = "" ∨ password dto = "" →
  (∀ s : S, ∃ message s',
     validationService_validateSignupData dto s
     = (Thrown (BadRequestException message), s')
     ∧ signup dto s = (Thrown (BadRequestException message), s')
     ∧ getStatus (BadRequestException message) = 400)
  ∧ (∀ s s' : S,
     userRepository_findByEmail (email dto) s = (Returned None, s') →
     signin dto s = (Thrown (ForbiddenException "Credentials incorrect"), s')
     ∧ getStatus (ForbiddenException "Credentials incorrect") = 403).
Proof.
  intros Hvalidation Hempty. split.
  - intros s. destruct (Hvalidation dto s Hempty) as (message & s' & H).
    exists message, s'. split; [done|]. split; [|done].
    unfold signup. run. by rewrite H.
  - intros s s' H. split; [by apply signin_unknown_email | done].
Qed.
End AuthServiceProperties.

Lemma signin_failures_indistinguishable_witness :
  fst (mock_signin (mkAuthDto "nobody@test.com" "123456") (test_db, tt))
  = Thrown (ForbiddenException "Credentials incorrect")
  ∧ fst (mock_signin (mkAuthDto "test@test.com" "654321") (test_db, tt))
    = fst (mock_signin (mkAuthDto "nobody@test.com" "123456") (test_db, tt)).
Proof.
  apply (signin_failures_indistinguishable
           (userRepository := PrismaUserRepository unit user_findUnique_email)
           (passwordHashing := ArgonPasswordHashingService unit mock_argon_hash mock_argon_verify)
           (tokenService := JwtTokenService unit mock_jwt_signAsync mock_config_get)
           (mkAuthDto "nobody@test.com" "123456") (mkAuthDto "test@test.com" "654321")
           test_user (test_db, tt) (test_db, tt) (test_db, tt) (test_db, tt) (test_db, tt));
    vm_compute; reflexivity.
Defined.

Lemma mock_validation_rejects_empty_fields :
  rejects_empty_fields (AuthValidationService unit mock_validateSignupData).
Proof.
  intros [e p] [db []] Hempty. simpl in *.
  exists "email and password should not be empty", (db, tt).
  unfold on_snd, mock_validateSignupData. simpl.
  destruct Hempty as [-> | ->]; simpl; [done|].
  by rewrite orb_true_r.
Qed.

Lemma signup_validates_signin_does_not_witness :
  mock_signup (mkAuthDto "" "123456") (test_db, tt)
  = (Thrown (BadRequestException "email and password should not be empty"), (test_db, tt))
  ∧ mock_signin (mkAuthDto "" "123456") (test_db, tt)
    = (Thrown (ForbiddenException "Credentials incorrect"), (test_db, tt)).
Proof.
  destruct (signup_validates_signin_does_not
           (userRepository := PrismaUserRepository unit user_findUnique_email)
           (passwordHashing := ArgonPasswordHashingService unit mock_argon_hash mock_argon_verify)
           (tokenService := JwtTokenService unit mock_jwt_signAsync mock_config_get)
           (validationService := AuthValidationService unit mock_validateSignupData)
           (mkAuthDto "" "123456") mock_validation_rejects_empty_fields)
    as [Hsignup Hsignin]; [by left|].
  split.
  - destruct (Hsignup (test_db, tt)) as (message & s' & Hvalid & H & _).
    vm_compute in Hvalid. injection Hvalid as <- <-. exact H.
  - apply Hsignin. vm_compute; reflexivity.
Defined.

(** C5, as the claim has it, fails on [signin]: with an empty email and an
    empty password it is the lookup that fails, with the 403 of wrong
    credentials and not the 400 of a validation failure, although the
    validation service at hand rejects that very payload. *)
Lemma signin_empty_fields_not_validated :
  ∃ (dto : AuthDto) (e : Exception),
    (email dto = "" ∨ password dto = "")
    ∧ fst (mock_validateSignupData dto tt) = Thrown (BadRequestException
                                           "email and password should not be empty")
    ∧ fst (mock_signin dto (test_db, tt)) = Thrown e
    ∧ e = ForbiddenException "Credentials incorrect"
    ∧ getStatus e = 403.
Proof.
  exists (mkAuthDto "" ""), (ForbiddenException "Credentials incorrect").
  split; [by left|]. repeat split.
Qed.

(** ** Signing up against the user table *)

Lemma registered_existsb (email : string) (db : Db) :
  registered email db ↔
  existsb (λ u, String.eqb (User.email u) email) (users db) = true.
Proof.
  unfold registered. rewrite existsb_exists. split.
  - intros (u & Hin & <-). exists u.
    split; [by apply list_elem_of_In | apply String.eqb_refl].
  - intros (u & Hin & Heq). exists u.
    split; [by apply list_elem_of_In | by apply String.eqb_eq].
Qed.

Lemma PrismaUserRepository_create_taken (email hash : string) (db : Db) :
  registered email db →
  PrismaUserRepository_create email hash db
  = (Thrown (new_DuplicateEmailException email),
     set_users db (users db) (user_seq db + 1)).
Proof.
  intros H. apply registered_existsb in H.
  unfold PrismaUserRepository_create, user_create. run. by rewrite H.
Qed.

Lemma PrismaUserRepository_create_fresh (email hash : string) (db : Db) :
  ¬ registered email db →
  (∀ u, u ∈ users db → User.id u < user_seq db) →
  let row := User.mk (user_seq db) email hash None None (clock db) (clock db) in
  PrismaUserRepository_create email hash db
  = (Returned row, set_users db (users db ++ [row]) (user_seq db + 1)).
Proof.
  intros Hfresh Hseq row.
  unfold PrismaUserRepository_create, user_create. run.
  rewrite registered_existsb in Hfresh. apply not_true_is_false in Hfresh.
  rewrite Hfresh. simpl.
  replace (existsb _ _) with false; [done|].
  symmetry. apply existsb_false_elem_of. intros u Hu.
  apply Z.eqb_neq. specialize (Hseq u Hu). lia.
Qed.

(** The repository only ever appends to the user table. *)
Lemma PrismaUserRepository_create_keeps (e email hash : string) (db : Db) :
  registered e db →
  registered e (snd (PrismaUserRepository_create email hash db)).
Proof.
  intros (u & Hin & Hu).
  unfold PrismaUserRepository_create, user_create. run.
  destruct (_ || _); simpl.
  - by exists u.
  - exists u. split; [|done]. apply elem_of_app. by left.
Qed.

(** ** The sequences stay ahead of the stored ids *)

Lemma apply_update_id (now : Z) (p : BookmarkUpdateInput) (r : Bookmark.t) :
  update_id p = None →
  Bookmark.id (apply_update now p r) = Bookmark.id r.
Proof.
  intros Hp. unfold apply_update. destruct (writes_nothing p); [done|].
  simpl. by rewrite Hp.
Qed.

Lemma deleteBookmarkById_sequenced (A K : Z) (db : Db) :
  sequenced db → sequenced (snd (deleteBookmarkById A K db)).
Proof.
  intros [Hb Hu]. unfold deleteBookmarkById, bookmark_delete.
  destruct (List.find _ _); [|done].
  split; simpl; [|done].
  intros r Hr. apply list_elem_of_In, List.filter_In in Hr as [Hr _].
  by apply Hb, list_elem_of_In.
Qed.

Lemma PrismaUserRepository_create_sequenced (email hash : string) (db : Db) :
  sequenced db → sequenced (snd (PrismaUserRepository_create email hash db)).
Proof.
  intros [Hb Hu]. unfold PrismaUserRepository_create, user_create. run.
  destruct (_ || _); split; simpl; try done.
  - intros u Hin. specialize (Hu u Hin). lia.
  - intros u Hin. apply elem_of_app in Hin as [Hin|Hin].
    + specialize (Hu u Hin). lia.
    + apply list_elem_of_singleton in Hin. subst u. simpl. lia.
Qed.

Section SignupOnce.
Variable E : Type.
Variable argon_hash : string → Promise E string.
Variable argon_verify : string → string → Promise E bool.
Variable jwt_signAsync : JwtPayload → JwtSignOptions → Promise E string.
Variable config_get : string → option string.
Variable validateSignupData : AuthDto → Promise E unit.
Variable findByEmail : string → Promise Db (option User.t).

Local Abbreviation signup_E :=
  (AuthService_signup E argon_hash argon_verify jwt_signAsync config_get
                      validateSignupData findByEmail).
Local Abbreviation signups_E :=
  (AuthService_signups E argon_hash argon_verify jwt_signAsync config_get
                       validateSignupData findByEmail).
Local Abbreviation generateAccessToken :=
  (JwtTokenService_generateAccessToken E jwt_signAsync config_get).

Lemma signup_keeps_registered (e : string) (dto : AuthDto) (w : Db * E) :
  registered e (fst w) → registered e (fst (snd (signup_E dto w))).
Proof.
  destruct w as [db st]. simpl. intros Hreg.
  unfold AuthService_signup, signup. run.
  destruct (validateSignupData dto st) as [[[]|ex] st1]; simpl; [|done].
  unfold ArgonPasswordHashingService_hash.
  destruct (argon_hash (password dto) st1) as [[h|ex] st2]; simpl; [|done].
  pose proof (PrismaUserRepository_create_keeps e (email dto) h db Hreg) as Hkeep.
  destruct (PrismaUserRepository_create (email dto) h db) as [[u|ex] db1]; simpl in *.
  - destruct (generateAccessToken _ _ st2) as [[tok|ex] st3]; simpl; [done|].
    by destruct ex.
  - by destruct ex.
Qed.

Lemma signups_keep_registered (e : string) (requests : list AuthDto) (w : Db * E) :
  registered e (fst w) → registered e (fst (signups_E requests w)).
Proof.
  unfold AuthService_signups, signups.
  revert w. induction requests as [|dto requests IH]; intros w Hreg; simpl; [done|].
  apply IH. by apply signup_keeps_registered.
Qed.

(** Signing up with an email that is already in the table. *)
Lemma signup_taken (dto : AuthDto) (db : Db) (e e1 e2 : E) (h : string) :
  registered (email dto) db →
  validateSignupData dto e = (Returned tt, e1) →
  argon_hash (password dto) e1 = (Returned h, e2) →
  signup_E dto (db, e)
  = (Thrown (ForbiddenException ("Email " +:+ email dto +:+ " is already taken")),
     (set_users db (users db) (user_seq db + 1), e2)).
Proof.
  intros Hreg Hvalid Hhash.
  unfold AuthService_signup, signup. run.
  rewrite Hvalid. simpl. unfold ArgonPasswordHashingService_hash.
  rewrite Hhash. simpl.
  by rewrite (PrismaUserRepository_create_taken _ _ _ Hreg).
Qed.

(** C4. The first signup with an email (valid payload, the libraries
    answering) stores the account and returns a token; from then on,
    whatever signups come in between, every signup with that email fails
    with the 403 that the service makes of the repository's
    [DuplicateEmailException], itself made of the storage's P2002. *)
Theorem signup_once_per_email
    (dto : AuthDto) (db : Db) (e e1 e2 e3 : E) (h token : string) :
  ¬ registered (email dto) db →
  (∀ u, u ∈ users db → User.id u < user_seq db) →
  validateSignupData dto e = (Returned tt, e1) →
  argon_hash (password dto) e1 = (Returned h, e2) →
  generateAccessToken (user_seq db) (email dto) e2 = (Returned token, e3) →
  ∃ db1,
    signup_E dto (db, e) = (Returned {| access_token := token |}, (db1, e3))
    ∧ ∀ (between : list AuthDto) (again : AuthDto) (db2 : Db) (ea eb ec : E)
        (h' : string),
        signups_E between (db1, e3) = (db2, ea) →
        email again = email dto →
        validateSignupData again ea = (Returned tt, eb) →
        argon_hash (password again) eb = (Returned h', ec) →
        fst (signup_E again (db2, ea))
        = Thrown (ForbiddenException ("Email " +:+ email dto +:+ " is already taken")).
Proof.
  intros Hfresh Hseq Hvalid Hhash Htoken.
  set (row := User.mk (user_seq db) (email dto) h None None (clock db) (clock db)).
  exists (set_users db (users db ++ [row]) (user_seq db + 1)). split.
  - unfold AuthService_signup, signup. run.
    rewrite Hvalid. simpl. unfold ArgonPasswordHashingService_hash.
    rewrite Hhash. simpl.
    rewrite (PrismaUserRepository_create_fresh _ _ _ Hfresh Hseq). simpl.
    by rewrite Htoken.
  - intros between again db2 ea eb ec h' Hrun Hsame Hvalid' Hhash'.
    assert (registered (email again) db2) as Hreg.
    { change db2 with (fst (db2, ea)). rewrite <- Hrun.
      apply signups_keep_registered. simpl. exists row.
      split; [apply elem_of_app; right; left | by rewrite Hsame]. }
    rewrite (signup_taken again db2 ea eb ec h' Hreg Hvalid' Hhash'). simpl.
    by rewrite Hsame.
Qed.
End SignupOnce.

Lemma signup_once_per_email_witness :
  ∃ db1 db2,
    mock_signup (mkAuthDto "new@test.com" "123456") (test_db, tt)
    = (Returned {| access_token := "new@test.com.15m" |}, (db1, tt))
    ∧ mock_signups [mkAuthDto "other@test.com" "abcdef"] (db1, tt) = (db2, tt)
    ∧ fst (mock_signup (mkAuthDto "new@test.com" "654321") (db2, tt))
      = Thrown (ForbiddenException "Email new@test.com is already taken").
Proof.
  assert (∀ w : Db * unit, w = (fst w, tt)) as Heta.
  { intros [d []]. reflexivity. }
  destruct (signup_once_per_email unit mock_argon_hash mock_argon_verify
              mock_jwt_signAsync mock_config_get mock_validateSignupData
              user_findUnique_email
              (mkAuthDto "new@test.com" "123456") test_db tt tt tt tt
              "$argon2id$123456" "new@test.com.15m")
    as (db1 & Hfirst & Hagain).
  - intros (u & Hin & Hu). apply list_elem_of_singleton in Hin. subst u.
    discriminate.
  - intros u Hin. apply list_elem_of_singleton in Hin. subst u.
    reflexivity.
  - reflexivity.
  - reflexivity.
  - reflexivity.
  - exists db1, (fst (mock_signups [mkAuthDto "other@test.com" "abcdef"] (db1, tt))).
    split; [exact Hfirst|]. split.
    + apply Heta.
    + apply (Hagain [mkAuthDto "other@test.com" "abcdef"]
               (mkAuthDto "new@test.com" "654321") _ tt tt tt "$argon2id$654321").
      * apply Heta.
      * reflexivity.
      * reflexivity.
      * reflexivity.
Defined.

(** * Further properties of the bookmark service *)

(** ** Looking rows up after a rewrite, a removal or an insertion *)

Section Lookups.
Context {A : Type}.
Implicit Types (f g : A → bool) (h : A → A) (l : list A).

Lemma find_map_if f h l :
  (∀ x, f x = true → f (h x) = true) →
  List.find f (List.map (λ x, if f x then h x else x) l) = h <$> List.find f l.
Proof.
  intros Hh. induction l as [|y l IH]; simpl; [done|].
  destruct (f y) eqn:Hy.
  - by rewrite (Hh y Hy).
  - by rewrite Hy.
Qed.

Lemma find_map_other f g h l :
  (∀ x, f x = true → g x = false ∧ g (h x) = false) →
  List.find g (List.map (λ x, if f x then h x else x) l) = List.find g l.
Proof.
  intros Hh. induction l as [|y l IH]; simpl; [done|].
  destruct (f y) eqn:Hy.
  - destruct (Hh y Hy) as [-> ->]. done.
  - by rewrite IH.
Qed.

Lemma find_filter_other f g l :
  (∀ x, g x = true → f x = false) →
  List.find g (List.filter (λ x, negb (f x)) l) = List.find g l.
Proof.
  intros Hg. induction l as [|y l IH]; simpl; [done|].
  destruct (f y) eqn:Hy; simpl.
  - destruct (g y) eqn:Hgy; [|done]. by rewrite (Hg y Hgy) in Hy.
  - by rewrite IH.
Qed.

Lemma find_snoc f l x :
  List.find f (l ++ [x])
  = match List.find f l with
    | Some y => Some y
    | None => if f x then Some x else None
    end.
Proof.
  induction l as [|y l IH]; simpl; [done|].
  by destruct (f y).
Qed.

Lemma filter_map_if_other f g h l :
  (∀ x, f x = true → g x = false ∧ g (h x) = false) →
  List.filter g (List.map (λ x, if f x then h x else x) l) = List.filter g l.
Proof.
  intros Hh. induction l as [|y l IH]; simpl; [done|].
  destruct (f y) eqn:Hy.
  - destruct (Hh y Hy) as [-> ->]. done.
  - by rewrite IH.
Qed.

Lemma filter_filter_negb_other f g l :
  (∀ x, g x = true → f x = false) →
  List.filter g (List.filter (λ x, negb (f x)) l) = List.filter g l.
Proof.
  intros Hg. induction l as [|y l IH]; simpl; [done|].
  destruct (f y) eqn:Hy; simpl.
  - destruct (g y) eqn:Hgy; [|done]. by rewrite (Hg y Hgy) in Hy.
  - by rewrite IH.
Qed.

Lemma map_if_none f h l :
  (∀ x, x ∈ l → f x = false) →
  List.map (λ x, if f x then h x else x) l = l.
Proof.
  induction l as [|y l IH]; simpl; intros Hl; [done|].
  rewrite (Hl y) by left. f_equal. apply IH. intros x Hx. apply Hl. by right.
Qed.

Lemma filter_negb_none f l :
  (∀ x, x ∈ l → f x = false) →
  List.filter (λ x, negb (f x)) l = l.
Proof.
  induction l as [|y l IH]; simpl; intros Hl; [done|].
  rewrite (Hl y) by left. simpl. f_equal. apply IH. intros x Hx. apply Hl. by right.
Qed.
End Lookups.

Lemma matches_other (K A K' A' : Z) (r : Bookmark.t) :
  (K', A') ≠ (K, A) →
  matches {| where_id := Some K; where_userId := Some A |} r = true →
  matches {| where_id := Some K'; where_userId := Some A' |} r = false.
Proof.
  intros Hne Hm. apply matches_both in Hm as [Hid Hown].
  apply not_true_is_false. rewrite matches_both. intros [Hid' Hown'].
  apply Hne. congruence.
Qed.

Lemma matches_owner (A : Z) (r : Bookmark.t) :
  matches {| where_id := None; where_userId := Some A |} r = true
  ↔ Bookmark.userId r = A.
Proof. unfold matches; simpl. by rewrite Z.eqb_eq. Qed.

(** The patch of the edit route sets no id, owner or timestamp. *)
Lemma check_update_data_edit (d : EditBookmarkDto) :
  check_update_data (spread ∅ (EditBookmarkDto_object d)) = Some (edit_input d).
Proof. destruct d as [[t|] [de|] [l|]]; vm_compute; reflexivity. Qed.

Lemma check_update_data_userId (data : JsObject) (p : BookmarkUpdateInput) (B : Z) :
  check_update_data data = Some p →
  data !! "userId" = Some (JNum B) →
  update_userId p = Some B.
Proof.
  unfold check_update_data, prop. intros H Hu.
  case_bool_decide; [|done]. rewrite Hu in H. by simplify_option_eq.
Qed.

Lemma check_update_data_id (data : JsObject) (p : BookmarkUpdateInput) :
  check_update_data data = Some p →
  data !! "id" = None →
  update_id p = None.
Proof.
  unfold check_update_data, prop. intros H Hid.
  case_bool_decide; [|done]. rewrite Hid in H. by simplify_option_eq.
Qed.

(** What [update] has done when it returns. *)
Lemma bookmark_update_returned (w : BookmarkWhere) (data : JsObject) (db db' : Db)
    (b : Bookmark.t) :
  bookmark_update w data db = (Returned b, db') →
  ∃ p old,
    check_update_data data = Some p
    ∧ List.find (matches w) (bookmarks db) = Some old
    ∧ b = apply_update (clock db) p old
    ∧ db' = set_bookmarks db
              (List.map (λ x, if matches w x then apply_update (clock db) p x else x)
                        (bookmarks db))
              (bookmark_seq db).
Proof.
  unfold bookmark_update. intros H.
  destruct (check_update_data data) as [p|]; [|done].
  destruct (List.find _ _) as [old|] eqn:Hold; [|done].
  destruct (_ || _); [done|].
  destruct (key_taken _ _ _); [done|].
  destruct (negb _); [done|].
  injection H as <- <-. by exists p, old.
Qed.

(** What [update] has checked when it returns. *)
Lemma bookmark_update_checked (w : BookmarkWhere) (data : JsObject) (db db' : Db)
    (b : Bookmark.t) (p : BookmarkUpdateInput) :
  bookmark_update w data db = (Returned b, db') →
  check_update_data data = Some p →
  key_taken w p (bookmarks db) = false.
Proof.
  unfold bookmark_update. intros H Hp. rewrite Hp in H.
  destruct (List.find _ _) as [old|]; [|done].
  destruct (_ || _); [done|].
  by destruct (key_taken _ _ _).
Qed.

(** What [delete] has done when it returns. *)
Lemma bookmark_delete_returned (w : BookmarkWhere) (db db' : Db) (b : Bookmark.t) :
  bookmark_delete w db = (Returned b, db') →
  List.find (matches w) (bookmarks db) = Some b
  ∧ db' = set_bookmarks db (List.filter (λ x, negb (matches w x)) (bookmarks db))
                        (bookmark_seq db).
Proof.
  unfold bookmark_delete. intros H.
  destruct (List.find _ _) as [old|] eqn:Hold; [|done].
  by injection H as <- <-.
Qed.

(** A patch that sets no id and no owner leaves a matching row matching. *)
Lemma apply_update_matches (K A now : Z) (p : BookmarkUpdateInput) (r : Bookmark.t) :
  update_id p = None →
  update_userId p = None →
  matches {| where_id := Some K; where_userId := Some A |} r = true →
  matches {| where_id := Some K; where_userId := Some A |} (apply_update now p r) = true.
Proof.
  intros Hid Hp Hm. apply matches_both. apply matches_both in Hm.
  unfold apply_update. destruct (writes_nothing p); [done|].
  simpl. by rewrite Hid, Hp.
Qed.

(** ** Listing, editing and the rows an operation leaves alone *)

(** X1. [getBookmarks A] returns, in storage order and untouched, exactly
    the stored bookmarks whose owner is [A]; the database is not changed. *)
Theorem getBookmarks_own (A : Z) (db : Db) :
  ∃ l,
    getBookmarks A db = (Returned l, db)
    ∧ l = List.filter (λ r, Bookmark.userId r =? A) (bookmarks db)
    ∧ ∀ r, r ∈ l ↔ r ∈ bookmarks db ∧ Bookmark.userId r = A.
Proof.
  eexists. split; [reflexivity|]. split; [reflexivity|].
  intros r. rewrite !list_elem_of_In, List.filter_In.
  unfold matches; simpl. by rewrite Z.eqb_eq.
Qed.

(** X2. When [editBookmarkById A K] returns for a patch of the edit
    route, the caller had a bookmark [K]; the returned row is that
    bookmark with the fields of the patch replaced, the other fields, the
    id, the owner and the creation time kept, and the update time set to
    the storage clock, unless the patch has no field at all, which leaves
    the update time too; reading bookmark [K] back returns that row. *)
Theorem edit_then_get (A K : Z) (patch : EditBookmarkDto) (db db' : Db) (b : Bookmark.t) :
  editBookmarkById A K (EditBookmarkDto_object patch) db = (Returned b, db') →
  ∃ old,
    getBookmarkById A K db = (Returned (Some old), db)
    ∧ getBookmarkById A K db' = (Returned (Some b), db')
    ∧ b = Bookmark.mk K
            (default (Bookmark.title old) (edit_title patch))
            (match edit_description patch with
             | Some d => Some d
             | None => Bookmark.description old
             end)
            (default (Bookmark.link old) (edit_link patch))
            A (Bookmark.createdAt old)
            (match edit_title patch, edit_description patch, edit_link patch with
             | None, None, None => Bookmark.updatedAt old
             | _, _, _ => clock db
             end).
Proof.
  unfold editBookmarkById. intros H.
  apply bookmark_update_returned in H as (p & old & Hp & Hold & -> & ->).
  rewrite check_update_data_edit in Hp. injection Hp as <-.
  exists old. split; [|split].
  - unfold getBookmarkById, bookmark_findFirst. by rewrite Hold.
  - unfold getBookmarkById, bookmark_findFirst. simpl.
    rewrite find_map_if by (intros x; by apply apply_update_matches).
    by rewrite Hold.
  - apply find_some_elem_of in Hold as [_ Hm]. apply matches_both in Hm as [<- <-].
    destruct old, patch as [[t|] [d|] [l|]]; reflexivity.
Qed.

Lemma edit_then_get_witness :
  ∃ b db' old,
    editBookmarkById 1 1 (EditBookmarkDto_object test_edit_dto) test_db = (Returned b, db')
    ∧ getBookmarkById 1 1 test_db = (Returned (Some old), test_db)
    ∧ getBookmarkById 1 1 db' = (Returned (Some b), db')
    ∧ b = Bookmark.mk 1 "Updated test bookmark" (Some "Updated test description")
                      "https://updated-test.com" 1 (Bookmark.createdAt old) 9.
Proof.
  destruct (edit_then_get 1 1 test_edit_dto test_db
              (snd (editBookmarkById 1 1 (EditBookmarkDto_object test_edit_dto) test_db))
              (Bookmark.mk 1 "Updated test bookmark" (Some "Updated test description")
                           "https://updated-test.com" 1 7 9))
    as (old & Hold & Hget & Hb).
  - vm_compute; reflexivity.
  - eexists _, _, old. split; [vm_compute; reflexivity|].
    split; [exact Hold|]. split; [exact Hget|]. exact Hb.
Defined.

(** X3. An edit by [A] of bookmark [K] with a patch of the edit route
    changes nothing for any other lookup: for every account and id other
    than [(A, K)], [getBookmarkById] answers after the edit what it
    answered before, and no row is added or removed. *)
Theorem edit_keeps_others (A K A' K' : Z) (patch : EditBookmarkDto) (db db' : Db)
    (b : Bookmark.t) :
  editBookmarkById A K (EditBookmarkDto_object patch) db = (Returned b, db') →
  (K', A') ≠ (K, A) →
  fst (getBookmarkById A' K' db') = fst (getBookmarkById A' K' db)
  ∧ length (bookmarks db') = length (bookmarks db).
Proof.
  unfold editBookmarkById. intros H Hne.
  apply bookmark_update_returned in H as (p & old & Hp & Hold & -> & ->).
  rewrite check_update_data_edit in Hp. injection Hp as <-.
  split.
  - unfold getBookmarkById, bookmark_findFirst. simpl. f_equal.
    apply find_map_other. intros x Hx. split.
    + by apply (matches_other K A).
    + apply (matches_other K A); [done|]. by apply apply_update_matches.
  - simpl. by rewrite length_map.
Qed.

Lemma edit_keeps_others_witness :
  ∃ b db',
    editBookmarkById 1 1 (EditBookmarkDto_object test_edit_dto) test_db = (Returned b, db')
    ∧ fst (getBookmarkById 2 1 db') = fst (getBookmarkById 2 1 test_db)
    ∧ length (bookmarks db') = length (bookmarks test_db).
Proof.
  eexists _, _. split; [vm_compute; reflexivity|].
  eapply (edit_keeps_others 1 1 2 1 test_edit_dto test_db);
    [vm_compute; reflexivity | discriminate].
Defined.

(** X4. A successful [deleteBookmarkById A K] returns the caller's
    bookmark [K] as it was stored, and changes nothing for any other
    lookup: for every account and id other than [(A, K)],
    [getBookmarkById] answers afterwards what it answered before. *)
Theorem delete_keeps_others (A K A' K' : Z) (db db' : Db) (b : Bookmark.t) :
  deleteBookmarkById A K db = (Returned b, db') →
  (K', A') ≠ (K, A) →
  getBookmarkById A K db = (Returned (Some b), db)
  ∧ fst (getBookmarkById A' K' db') = fst (getBookmarkById A' K' db).
Proof.
  unfold deleteBookmarkById. intros H Hne.
  apply bookmark_delete_returned in H as [Hb ->]. split.
  - unfold getBookmarkById, bookmark_findFirst. by rewrite Hb.
  - unfold getBookmarkById, bookmark_findFirst. simpl. f_equal.
    apply find_filter_other. intros x Hx.
    apply not_true_is_false. intros Hm.
    apply (matches_other K A K' A' x Hne) in Hm. congruence.
Qed.

Lemma delete_keeps_others_witness :
  ∃ db',
    deleteBookmarkById 1 1 test_db = (Returned test_bookmark, db')
    ∧ getBookmarkById 1 1 test_db = (Returned (Some test_bookmark), test_db)
    ∧ fst (getBookmarkById 2 1 db') = fst (getBookmarkById 2 1 test_db).
Proof.
  eexists. split; [vm_compute; reflexivity|].
  apply (delete_keeps_others 1 1 2 1 test_db _ test_bookmark);
    [vm_compute; reflexivity | discriminate].
Defined.

Lemma check_create_data_id_given (data : JsObject) (input : BookmarkCreateInput) (k : Z) :
  check_create_data data = Some input →
  data !! "id" = Some (JNum k) →
  create_id input = Some k.
Proof.
  unfold check_create_data, prop. intros H Hid.
  case_bool_decide; [|done]. rewrite Hid in H. by simplify_option_eq.
Qed.

(** The service adds [userId] and nothing else to the payload. *)
Lemma createBookmark_data_other (A : Z) (dto : JsObject) (key : string) :
  key ≠ "userId" →
  spread {[ "userId" := JNum A ]} dto !! key = dto !! key.
Proof.
  intros Hkey. unfold spread. rewrite lookup_union, lookup_singleton_ne by done.
  by destruct (dto !! key).
Qed.

(** X5. When [createBookmark] returns a row, whatever object was sent,
    that row is appended to the table and every row stored before stays:
    every lookup that found a bookmark before finds the same one after.
    The owner of the row is a stored account and its id was not in the
    table; the id is the one of the payload when it has one, and else the
    next of the sequence, which is then consumed; the timestamps are the
    storage clock unless the payload gives them. *)
Theorem create_keeps_others (A : Z) (dto : JsObject) (db db' : Db) (b : Bookmark.t) :
  createBookmark A dto db = (Returned b, db') →
  bookmarks db' = (bookmarks db ++ [b])%list
  ∧ (∀ r, r ∈ bookmarks db → Bookmark.id r ≠ Bookmark.id b)
  ∧ owner_stored db (Bookmark.userId b) = true
  ∧ (dto !! "id" = None →
     Bookmark.id b = bookmark_seq db ∧ bookmark_seq db' = bookmark_seq db + 1)
  ∧ (∀ k, dto !! "id" = Some (JNum k) →
     Bookmark.id b = k ∧ bookmark_seq db' = bookmark_seq db)
  ∧ (dto !! "createdAt" = None → Bookmark.createdAt b = clock db)
  ∧ (dto !! "updatedAt" = None → Bookmark.updatedAt b = clock db)
  ∧ ∀ A' K' r,
      getBookmarkById A' K' db = (Returned (Some r), db) →
      getBookmarkById A' K' db' = (Returned (Some r), db').
Proof.
  unfold createBookmark. intros H.
  pose proof (bookmark_create_checked _ _ _ _ H) as (Howner & _ & _).
  apply bookmark_create_returned in H as (input & Hin & Hb & Hfresh & ->).
  split; [done|]. split; [by rewrite Hb|]. split; [done|].
  split; [|split; [|split; [|split]]].
  - intros Hid. rewrite <- (createBookmark_data_other A) in Hid by done.
    rewrite Hb. simpl. by rewrite (check_create_data_id _ _ Hin Hid).
  - intros k Hid. rewrite <- (createBookmark_data_other A) in Hid by done.
    rewrite Hb. simpl. by rewrite (check_create_data_id_given _ _ _ Hin Hid).
  - intros Hc. rewrite <- (createBookmark_data_other A) in Hc by done.
    rewrite Hb. simpl.
    by rewrite (proj1 (check_create_data_timestamps _ _ Hin) Hc).
  - intros Hm. rewrite <- (createBookmark_data_other A) in Hm by done.
    rewrite Hb. simpl.
    by rewrite (proj2 (check_create_data_timestamps _ _ Hin) Hm).
  - intros A' K' r. unfold getBookmarkById, bookmark_findFirst. simpl.
    intros Hr. injection Hr as Hr. by rewrite find_snoc, Hr.
Qed.

Lemma create_keeps_others_witness :
  ∃ b db',
    createBookmark 2 (<["id" := JNum 7]> (CreateBookmarkDto_object test_create_dto))
                   shared_db = (Returned b, db')
    ∧ bookmarks db' = (bookmarks shared_db ++ [b])%list
    ∧ Bookmark.id b = 7
    ∧ bookmark_seq db' = bookmark_seq shared_db
    ∧ Bookmark.createdAt b = 9
    ∧ getBookmarkById 1 1 db' = (Returned (Some test_bookmark), db').
Proof.
  destruct (create_keeps_others 2
              (<["id" := JNum 7]> (CreateBookmarkDto_object test_create_dto)) shared_db
              (snd (createBookmark 2
                      (<["id" := JNum 7]> (CreateBookmarkDto_object test_create_dto))
                      shared_db))
              (Bookmark.mk 7 "Test bookmark" (Some "Test description")
                           "https://test.com" 2 9 9))
    as (Hrows & _ & _ & _ & Hid & Hcreated & _ & Hkeep).
  - vm_compute; reflexivity.
  - destruct (Hid 7) as [Hid7 Hseq]; [vm_compute; reflexivity|].
    eexists _, _. split; [vm_compute; reflexivity|].
    split; [exact Hrows|]. split; [exact Hid7|]. split; [exact Hseq|].
    split; [apply Hcreated; vm_compute; reflexivity|].
    apply Hkeep. vm_compute; reflexivity.
Defined.

(** X6. When [createBookmark] returns a row, the list of its owner is
    the list from before with that row at the end, and the list of every
    other account is the one from before. *)
Theorem create_then_list (A B : Z) (dto : JsObject) (db db' : Db) (b : Bookmark.t) :
  createBookmark A dto db = (Returned b, db') →
  ∃ l,
    getBookmarks B db = (Returned l, db)
    ∧ getBookmarks B db'
      = (Returned (l ++ if Bookmark.userId b =? B then [b] else [])%list, db').
Proof.
  unfold createBookmark. intros H.
  apply bookmark_create_returned in H as (input & _ & Hb & _ & ->).
  eexists. split; [reflexivity|].
  unfold getBookmarks, bookmark_findMany. simpl.
  rewrite List.filter_app. simpl. unfold matches at 2. simpl.
  by destruct (Bookmark.userId b =? B).
Qed.

Lemma create_then_list_witness :
  ∃ b db',
    createBookmark 1 (CreateBookmarkDto_object test_create_dto) test_db = (Returned b, db')
    ∧ getBookmarks 1 test_db = (Returned [test_bookmark], test_db)
    ∧ getBookmarks 1 db' = (Returned [test_bookmark; b], db').
Proof.
  destruct (create_then_list 1 1 (CreateBookmarkDto_object test_create_dto) test_db
              (snd (createBookmark 1 (CreateBookmarkDto_object test_create_dto) test_db))
              (Bookmark.mk 2 "Test bookmark" (Some "Test description")
                           "https://test.com" 1 9 9))
    as (l & Hbefore & Hafter).
  - vm_compute; reflexivity.
  - exists (Bookmark.mk 2 "Test bookmark" (Some "Test description")
                         "https://test.com" 1 9 9),
           (snd (createBookmark 1 (CreateBookmarkDto_object test_create_dto) test_db)).
    split; [vm_compute; reflexivity|].
    split; [vm_compute; reflexivity|].
    rewrite Hafter. vm_compute in Hbefore. injection Hbefore as <-. reflexivity.
Defined.

Lemma filter_own_without (A K : Z) (rows : list Bookmark.t) :
  List.filter (matches {| where_id := None; where_userId := Some A |})
    (List.filter
       (λ x, negb (matches {| where_id := Some K; where_userId := Some A |} x)) rows)
  = List.filter (λ r, negb (Bookmark.id r =? K))
      (List.filter (matches {| where_id := None; where_userId := Some A |}) rows).
Proof.
  unfold matches; simpl.
  induction rows as [|r rows IH]; simpl; [done|].
  destruct (Bookmark.id r =? K) eqn:Hid, (Bookmark.userId r =? A) eqn:Hown; simpl;
    rewrite ?Hid, ?Hown; simpl; rewrite ?Hid; simpl; by rewrite IH.
Qed.

(** X7. After a successful [deleteBookmarkById A K] the list of [A] is
    the list from before without the bookmarks of id [K], and the list of
    every other account is the one from before. *)
Theorem delete_then_list (A K B : Z) (db db' : Db) (b : Bookmark.t) :
  deleteBookmarkById A K db = (Returned b, db') →
  ∃ l,
    getBookmarks B db = (Returned l, db)
    ∧ getBookmarks B db'
      = (Returned (if B =? A then List.filter (λ r, negb (Bookmark.id r =? K)) l else l),
         db').
Proof.
  unfold deleteBookmarkById. intros H.
  apply bookmark_delete_returned in H as [_ ->].
  eexists. split; [reflexivity|].
  unfold getBookmarks, bookmark_findMany. simpl. f_equal. f_equal.
  destruct (B =? A) eqn:HB.
  - apply Z.eqb_eq in HB as ->. apply filter_own_without.
  - apply filter_filter_negb_other. intros x Hx.
    apply matches_owner in Hx. apply not_true_is_false. intros Hm.
    apply matches_both in Hm as [_ Hm]. apply Z.eqb_neq in HB. congruence.
Qed.

Lemma delete_then_list_witness :
  ∃ db',
    deleteBookmarkById 1 1 test_db = (Returned test_bookmark, db')
    ∧ getBookmarks 1 test_db = (Returned [test_bookmark], test_db)
    ∧ getBookmarks 1 db' = (Returned [], db').
Proof.
  destruct (delete_then_list 1 1 1 test_db
              (snd (deleteBookmarkById 1 1 test_db)) test_bookmark)
    as (l & Hbefore & Hafter).
  - vm_compute; reflexivity.
  - exists (snd (deleteBookmarkById 1 1 test_db)).
    split; [vm_compute; reflexivity|].
    split; [vm_compute; reflexivity|].
    rewrite Hafter. vm_compute in Hbefore. injection Hbefore as <-. reflexivity.
Defined.

(** ** Operations one after the other *)

(** X8. The life of a bookmark (the end-to-end suite, for any stored
    account, any payloads without a NUL character and any database whose
    ids come from the sequence): the create returns a row; editing it
    under its id returns the patched row, which reading it back returns
    as well; deleting it returns that row; afterwards it is not found, and
    the table is the one from before the create. *)
Theorem bookmark_lifecycle (A : Z) (dto : CreateBookmarkDto) (patch : EditBookmarkDto)
    (db : Db) :
  (∀ r, r ∈ bookmarks db → Bookmark.id r < bookmark_seq db) →
  owner_stored db A = true →
  create_dto_clean dto = true →
  edit_dto_clean patch = true →
  ∃ b db1 b' db2 db3,
    createBookmark A (CreateBookmarkDto_object dto) db = (Returned b, db1)
    ∧ editBookmarkById A (Bookmark.id b) (EditBookmarkDto_object patch) db1
      = (Returned b', db2)
    ∧ Bookmark.title b' = default (dto_title dto) (edit_title patch)
    ∧ Bookmark.link b' = default (dto_link dto) (edit_link patch)
    ∧ getBookmarkById A (Bookmark.id b) db2 = (Returned (Some b'), db2)
    ∧ deleteBookmarkById A (Bookmark.id b) db2 = (Returned b', db3)
    ∧ getBookmarkById A (Bookmark.id b) db3 = (Returned None, db3)
    ∧ bookmarks db3 = bookmarks db.
Proof.
  intros Hseq Howner Hdto Hpatch.
  apply negb_true_iff in Hdto, Hpatch.
  set (k := bookmark_seq db).
  set (w := {| where_id := Some k; where_userId := Some A |}).
  set (b := Bookmark.mk k (dto_title dto) (dto_description dto) (dto_link dto) A
                        (clock db) (clock db)).
  set (b' := apply_update (clock db) (edit_input patch) b).
  assert (∀ r, r ∈ bookmarks db → matches w r = false) as Hold.
  { intros r Hr. apply not_true_is_false. intros Hm.
    apply matches_both in Hm as [Hid _]. specialize (Hseq r Hr). lia. }
  assert (matches w b = true) as Hb by (by apply matches_both).
  assert (matches w b' = true) as Hb' by (by apply apply_update_matches).
  assert (List.find (matches w) (bookmarks db) = None) as Hnone
    by (by apply find_none_elem_of).
  exists b, (set_bookmarks db (bookmarks db ++ [b]) (k + 1)), b',
    (set_bookmarks db (bookmarks db ++ [b']) (k + 1)),
    (set_bookmarks db (bookmarks db) (k + 1)).
  split; [|split; [|split; [|split; [|split; [|split; [|split]]]]]].
  - unfold createBookmark, bookmark_create. rewrite check_create_data_dto.
    simpl. rewrite Hdto, Howner. simpl.
    replace (existsb _ _) with false; [done|].
    symmetry. apply existsb_false_elem_of. intros r Hr.
    apply Z.eqb_neq. specialize (Hseq r Hr). lia.
  - unfold editBookmarkById, bookmark_update. rewrite check_update_data_edit.
    simpl. fold k w. rewrite (find_snoc_fresh _ _ _ Hnone Hb).
    replace (default None (Some <$> edit_description patch))
      with (edit_description patch) by (by destruct (edit_description patch)).
    rewrite Hpatch. unfold key_taken. simpl.
    rewrite List.map_app, (map_if_none _ _ _ Hold). simpl. by rewrite Hb.
  - unfold b'. by destruct patch as [[t|] [d|] [l|]].
  - unfold b'. by destruct patch as [[t|] [d|] [l|]].
  - unfold getBookmarkById, bookmark_findFirst. simpl. fold k w.
    by rewrite (find_snoc_fresh _ _ _ Hnone Hb').
  - unfold deleteBookmarkById, bookmark_delete. simpl. fold k w.
    rewrite (find_snoc_fresh _ _ _ Hnone Hb').
    rewrite List.filter_app, (filter_negb_none _ _ Hold). simpl. rewrite Hb'. simpl.
    by rewrite app_nil_r.
  - unfold getBookmarkById, bookmark_findFirst. simpl. fold k w. by rewrite Hnone.
  - done.
Qed.

Lemma bookmark_lifecycle_witness :
  ∃ b db1 b' db2 db3,
    createBookmark 1 (CreateBookmarkDto_object test_create_dto) test_db = (Returned b, db1)
    ∧ editBookmarkById 1 (Bookmark.id b) (EditBookmarkDto_object test_edit_dto) db1
      = (Returned b', db2)
    ∧ Bookmark.title b' = "Updated test bookmark"
    ∧ Bookmark.link b' = "https://updated-test.com"
    ∧ getBookmarkById 1 (Bookmark.id b) db2 = (Returned (Some b'), db2)
    ∧ deleteBookmarkById 1 (Bookmark.id b) db2 = (Returned b', db3)
    ∧ getBookmarkById 1 (Bookmark.id b) db3 = (Returned None, db3)
    ∧ bookmarks db3 = bookmarks test_db.
Proof.
  apply (bookmark_lifecycle 1 test_create_dto test_edit_dto test_db).
  - intros r Hr. apply list_elem_of_singleton in Hr. subst r. reflexivity.
  - reflexivity.
  - reflexivity.
  - reflexivity.
Defined.

Lemma bookmark_update_owner (w : BookmarkWhere) (data : JsObject) (db db' : Db)
    (b : Bookmark.t) (p : BookmarkUpdateInput) :
  bookmark_update w data db = (Returned b, db') →
  check_update_data data = Some p →
  from_option (owner_stored db) true (update_userId p) = true.
Proof.
  unfold bookmark_update. intros H Hp. rewrite Hp in H.
  destruct (List.find _ _) as [old|]; [|done].
  destruct (_ || _); [done|].
  destruct (key_taken _ _ _); [done|].
  destruct (negb _) eqn:Howner; [done|].
  by apply negb_false_iff in Howner.
Qed.

Lemma apply_update_userId (now B : Z) (p : BookmarkUpdateInput) (r : Bookmark.t) :
  update_userId p = Some B →
  Bookmark.userId (apply_update now p r) = B.
Proof.
  intros Hp. unfold apply_update.
  destruct p as [[] [] [] [] [] [] []]; simpl in *; by simplify_eq.
Qed.

(** X9. The patch is passed on as it came: when it carries a [userId]
    property [B] other than the caller [A], a successful
    [editBookmarkById A K] stores the bookmark under owner [B], who is a
    stored account, and the caller no longer finds bookmark [K]; the id
    of the bookmark stays [K] unless the patch carries an [id] too. *)
Theorem edit_with_userId_hands_over (A B K : Z) (dto : JsObject) (db db' : Db)
    (b : Bookmark.t) :
  dto !! "userId" = Some (JNum B) →
  B ≠ A →
  editBookmarkById A K dto db = (Returned b, db') →
  Bookmark.userId b = B
  ∧ owner_stored db B = true
  ∧ (dto !! "id" = None → Bookmark.id b = K)
  ∧ b ∈ bookmarks db'
  ∧ getBookmarkById A K db' = (Returned None, db').
Proof.
  intros Hdto Hne H. unfold editBookmarkById in H.
  assert (spread ∅ dto = dto) as Hspread by (unfold spread; apply map_union_empty).
  rewrite Hspread in H.
  pose proof H as H'.
  apply bookmark_update_returned in H as (p & old & Hp & Hold & -> & ->).
  pose proof (bookmark_update_owner _ _ _ _ _ _ H' Hp) as Howner.
  pose proof (check_update_data_userId _ _ B Hp Hdto) as HB.
  rewrite HB in Howner. simpl in Howner.
  pose proof Hold as Hold'.
  apply find_some_elem_of in Hold' as [Hin Hm].
  split; [|split; [|split; [|split]]].
  - by apply apply_update_userId.
  - done.
  - intros Hid. apply matches_both in Hm as [Hm _].
    by rewrite apply_update_id by (by apply (check_update_data_id dto)).
  - simpl. apply list_elem_of_In, in_map_iff. exists old.
    split; [by rewrite Hm | by apply list_elem_of_In].
  - unfold getBookmarkById, bookmark_findFirst. simpl. f_equal. f_equal.
    apply find_none_elem_of. intros x Hx.
    apply list_elem_of_In, in_map_iff in Hx as (x0 & <- & _).
    destruct (matches _ x0) eqn:Hx0; [|done].
    apply not_true_is_false. rewrite matches_both.
    rewrite (apply_update_userId _ B) by done. intros [_ Hown]. done.
Qed.

Lemma edit_with_userId_hands_over_witness :
  ∃ b db',
    editBookmarkById 1 1 {[ "userId" := JNum 2 ]} shared_db = (Returned b, db')
    ∧ Bookmark.userId b = 2
    ∧ owner_stored shared_db 2 = true
    ∧ Bookmark.id b = 1
    ∧ b ∈ bookmarks db'
    ∧ getBookmarkById 1 1 db' = (Returned None, db').
Proof.
  destruct (edit_with_userId_hands_over 1 2 1 {[ "userId" := JNum 2 ]} shared_db
              (snd (editBookmarkById 1 1 {[ "userId" := JNum 2 ]} shared_db))
              (Bookmark.mk 1 "Test bookmark" (Some "Test description")
                           "https://test.com" 2 7 9))
    as (Howner & Hstored & Hid & Hin & Hget);
    [vm_compute; reflexivity | discriminate | vm_compute; reflexivity |].
  eexists _, _. split; [vm_compute; reflexivity|].
  split; [exact Howner|]. split; [exact Hstored|].
  split; [apply Hid; vm_compute; reflexivity|].
  split; [exact Hin | exact Hget].
Defined.

(** ** The primary key *)

Lemma map_id_rewrite (f : Bookmark.t → bool) (now : Z) (p : BookmarkUpdateInput)
    (rows : list Bookmark.t) :
  update_id p = None →
  List.map Bookmark.id (List.map (λ x, if f x then apply_update now p x else x) rows)
  = List.map Bookmark.id rows.
Proof.
  intros Hp. rewrite List.map_map. apply List.map_ext. intros x.
  destruct (f x); [by apply apply_update_id | done].
Qed.

Lemma NoDup_map_filter {A B : Type} (g : A → B) (f : A → bool) (l : list A) :
  NoDup (List.map g l) → NoDup (List.map g (List.filter f l)).
Proof.
  induction l as [|y l IH]; simpl; intros Hl; [done|].
  apply NoDup_cons in Hl as [Hy Hl]. destruct (f y); simpl; [|auto].
  apply NoDup_cons. split; [|auto].
  intros Hin. apply Hy.
  apply list_elem_of_In, in_map_iff in Hin as (x & Hx & Hin).
  apply List.filter_In in Hin as [Hin _].
  apply list_elem_of_In, in_map_iff. eauto.
Qed.

(** X10. With the payloads of the routes, the three writing operations
    keep the primary key of the bookmark table, whether they return or
    throw: no id stored twice, every id below the sequence. *)
Theorem bookmark_keys_kept (A K : Z) (dto : CreateBookmarkDto) (patch : EditBookmarkDto)
    (db : Db) :
  bookmark_keys db →
  bookmark_keys (snd (createBookmark A (CreateBookmarkDto_object dto) db))
  ∧ bookmark_keys (snd (editBookmarkById A K (EditBookmarkDto_object patch) db))
  ∧ bookmark_keys (snd (deleteBookmarkById A K db)).
Proof.
  intros [Hdup Hseq].
  assert (∀ rows, rows = bookmarks db →
            bookmark_keys (set_bookmarks db rows (bookmark_seq db + 1))) as Hnext.
  { intros rows ->. split; simpl; [done|].
    intros r Hr. specialize (Hseq r Hr). lia. }
  split; [|split].
  - unfold createBookmark, bookmark_create. rewrite check_create_data_dto. simpl.
    destruct (_ || _); [done|].
    destruct (existsb _ _); [by apply Hnext|].
    destruct (negb _); [by apply Hnext|].
    split; simpl.
    + rewrite List.map_app. simpl. apply NoDup_app. split; [done|]. split.
      * intros k Hk Hk'. apply list_elem_of_singleton in Hk'. subst k.
        apply list_elem_of_In, in_map_iff in Hk as (r & Hid & Hr).
        apply list_elem_of_In in Hr. specialize (Hseq r Hr). lia.
      * apply NoDup_singleton.
    + intros r Hr. apply elem_of_app in Hr as [Hr|Hr].
      * specialize (Hseq r Hr). lia.
      * apply list_elem_of_singleton in Hr. subst r. simpl. lia.
  - unfold editBookmarkById, bookmark_update. rewrite check_update_data_edit.
    destruct (List.find _ _); [|done].
    destruct (_ || _); [done|].
    destruct (key_taken _ _ _); [done|].
    destruct (negb _); [done|].
    split; simpl.
    + by rewrite map_id_rewrite.
    + intros r Hr. apply list_elem_of_In, in_map_iff in Hr as (r0 & <- & Hr0).
      apply list_elem_of_In in Hr0.
      destruct (matches _ r0); [rewrite apply_update_id by done|]; by apply Hseq.
  - unfold deleteBookmarkById, bookmark_delete.
    destruct (List.find _ _); [|done].
    split; simpl.
    + by apply NoDup_map_filter.
    + intros r Hr. apply list_elem_of_In, List.filter_In in Hr as [Hr _].
      by apply Hseq, list_elem_of_In.
Qed.

Lemma bookmark_keys_kept_witness :
  bookmark_keys test_db
  ∧ bookmark_keys (snd (createBookmark 1 (CreateBookmarkDto_object test_create_dto) test_db))
  ∧ bookmark_keys (snd (editBookmarkById 1 1 (EditBookmarkDto_object test_edit_dto)
                           test_db))
  ∧ bookmark_keys (snd (deleteBookmarkById 1 1 test_db)).
Proof.
  assert (bookmark_keys test_db) as Hkeys.
  { split.
    - apply NoDup_singleton.
    - intros r Hr. apply list_elem_of_singleton in Hr. subst r. reflexivity. }
  split; [exact Hkeys|].
  apply (bookmark_keys_kept 1 1 test_create_dto test_edit_dto test_db Hkeys).
Defined.

(** * Further properties of the auth service *)

Section SigninProperties.
Context {S : Type}.
Context {userRepository : IUserRepository S}.
Context {passwordHashing : IPasswordHashingService S}.
Context {tokenService : ITokenService S}.

(** X11. [signin] returns a token exactly when the repository knows the
    email, the password verifies against the stored hash of that account,
    and the token service signs a token for the id and the email of that
    account; the returned token is that one. *)
Theorem signin_returns_iff_verified (dto : AuthDto) (s s' : S) (token : AccessToken) :
  signin dto s = (Returned token, s')
  ↔ ∃ u s1 s2,
      userRepository_findByEmail (email dto) s = (Returned (Some u), s1)
      ∧ passwordHashing_verify (User.hash u) (password dto) s1 = (Returned true, s2)
      ∧ tokenService_generateAccessToken (User.id u) (User.email u) s2
        = (Returned (access_token token), s').
Proof.
  unfold signin. run. split.
  - intros H.
    destruct (userRepository_findByEmail (email dto) s) as [[[u|]|ex] s1]; try done.
    simpl in H. run.
    destruct (passwordHashing_verify (User.hash u) (password dto) s1)
      as [[[]|ex] s2] eqn:Hverify; try done.
    simpl in H. run.
    destruct (tokenService_generateAccessToken (User.id u) (User.email u) s2)
      as [[tok|ex] s3] eqn:Htoken; try done.
    injection H as <- <-. by exists u, s1, s2.
  - intros (u & s1 & s2 & Hfind & Hverify & Htoken).
    rewrite Hfind. simpl. run.
    rewrite Hverify. simpl. run. rewrite Htoken. by destruct token.
Qed.
End SigninProperties.

Lemma signin_returns_iff_verified_witness :
  mock_signin (mkAuthDto "test@test.com" "123456") (test_db, tt)
  = (Returned {| access_token := "test@test.com.15m" |}, (test_db, tt)).
Proof.
  apply (signin_returns_iff_verified
           (userRepository := PrismaUserRepository unit user_findUnique_email)
           (passwordHashing := ArgonPasswordHashingService unit mock_argon_hash mock_argon_verify)
           (tokenService := JwtTokenService unit mock_jwt_signAsync mock_config_get)).
  exists test_user, (test_db, tt), (test_db, tt). repeat split.
Defined.

Section SignupProperties.
Variable E : Type.
Variable argon_hash : string → Promise E string.
Variable argon_verify : string → string → Promise E bool.
Variable jwt_signAsync : JwtPayload → JwtSignOptions → Promise E string.
Variable config_get : string → option string.
Variable validateSignupData : AuthDto → Promise E unit.
Variable findByEmail : string → Promise Db (option User.t).

Local Abbreviation signup_E :=
  (AuthService_signup E argon_hash argon_verify jwt_signAsync config_get
                      validateSignupData findByEmail).
Local Abbreviation generateAccessToken :=
  (JwtTokenService_generateAccessToken E jwt_signAsync config_get).

(** X12. When [signup] returns a token, the payload passed the
    validation, the email was not yet in the table, and the table has
    gained exactly one account: the next id of the sequence, the email of
    the payload, and as hash what the hashing library answered for the
    password; the token is the one signed for that id and email, and the
    bookmarks are untouched. *)
Theorem signup_stores_the_hash (dto : AuthDto) (db db' : Db) (e e' : E)
    (token : AccessToken) :
  signup_E dto (db, e) = (Returned token, (db', e')) →
  ∃ e1 h e2,
    validateSignupData dto e = (Returned tt, e1)
    ∧ argon_hash (password dto) e1 = (Returned h, e2)
    ∧ generateAccessToken (user_seq db) (email dto) e2
      = (Returned (access_token token), e')
    ∧ ¬ registered (email dto) db
    ∧ users db'
      = (users db
         ++ [User.mk (user_seq db) (email dto) h None None (clock db) (clock db)])%list
    ∧ bookmarks db' = bookmarks db.
Proof.
  unfold AuthService_signup, signup. run.
  destruct (validateSignupData dto e) as [[[]|ex] e1] eqn:Hvalid; simpl; [|done]. run.
  unfold ArgonPasswordHashingService_hash.
  destruct (argon_hash (password dto) e1) as [[h|ex] e2] eqn:Hhash; simpl; [|done]. run.
  unfold PrismaUserRepository_create, user_create. run.
  destruct (existsb _ _ || existsb _ _) eqn:Htaken; simpl; [done|]. run.
  destruct (generateAccessToken _ _ e2) as [[tok|ex] e3] eqn:Htoken; simpl;
    [|by destruct ex].
  intros H. injection H as <- <- <-.
  exists e1, h, e2.
  split; [done|]. split; [done|]. split; [done|]. split; [|done].
  apply orb_false_iff in Htaken as [Htaken _].
  rewrite registered_existsb. by rewrite Htaken.
Qed.

(** X13. [signup] is not undone when the token cannot be signed: with a
    new email, an accepted payload and a hash, a failure of the token
    service makes [signup] throw, and the account stays in the table. *)
Theorem signup_token_failure_keeps_account
    (dto : AuthDto) (db : Db) (e e1 e2 e3 : E) (h : string) (ex : Exception) :
  ¬ registered (email dto) db →
  (∀ u, u ∈ users db → User.id u < user_seq db) →
  validateSignupData dto e = (Returned tt, e1) →
  argon_hash (password dto) e1 = (Returned h, e2) →
  generateAccessToken (user_seq db) (email dto) e2 = (Thrown ex, e3) →
  ∃ db1,
    signup_E dto (db, e)
    = (Thrown match ex with
              | DuplicateEmailException message => ForbiddenException message
              | _ => ex
              end, (db1, e3))
    ∧ registered (email dto) db1.
Proof.
  intros Hfresh Hseq Hvalid Hhash Htoken.
  set (row := User.mk (user_seq db) (email dto) h None None (clock db) (clock db)).
  exists (set_users db (users db ++ [row]) (user_seq db + 1)). split.
  - unfold AuthService_signup, signup. run.
    rewrite Hvalid. simpl. unfold ArgonPasswordHashingService_hash.
    rewrite Hhash. simpl.
    rewrite (PrismaUserRepository_create_fresh _ _ _ Hfresh Hseq). simpl.
    rewrite Htoken. by destruct ex.
  - exists row. split; [|done]. simpl. apply elem_of_app. right. left.
Qed.

(** X15. Whatever it answers, [signup] changes no stored account and no
    bookmark: the user table afterwards is the one from before, with at
    most one account added at the end. *)
Theorem signup_only_appends (dto : AuthDto) (db : Db) (e : E) :
  ∃ new,
    users (fst (snd (signup_E dto (db, e)))) = (users db ++ new)%list
    ∧ (length new ≤ 1)%nat
    ∧ bookmarks (fst (snd (signup_E dto (db, e)))) = bookmarks db.
Proof.
  assert (∀ (l : list User.t) (rows : list Bookmark.t),
            ∃ new, l = (l ++ new)%list ∧ (length new ≤ 1)%nat ∧ rows = rows) as Hsame.
  { intros l rows. exists []. rewrite app_nil_r. simpl. split; [done|]. split; [lia|done]. }
  unfold AuthService_signup, signup. run.
  destruct (validateSignupData dto e) as [[[]|ex] e1]; simpl; [|apply Hsame].
  unfold ArgonPasswordHashingService_hash.
  destruct (argon_hash (password dto) e1) as [[h|ex] e2]; simpl; [|apply Hsame].
  unfold PrismaUserRepository_create, user_create. run.
  destruct (existsb _ _ || existsb _ _); simpl; [apply Hsame|].
  destruct (generateAccessToken _ _ e2) as [[tok|ex] e3]; simpl.
  - eexists [_]. simpl. split; [done|]. split; [lia | done].
  - eexists [_]. destruct ex; simpl; (split; [done|]); (split; [lia | done]).
Qed.
End SignupProperties.

Lemma signup_stores_the_hash_witness :
  ∃ db',
    mock_signup (mkAuthDto "new@test.com" "123456") (test_db, tt)
    = (Returned {| access_token := "new@test.com.15m" |}, (db', tt))
    ∧ users db'
      = [test_user; User.mk 2 "new@test.com" "$argon2id$123456" None None 9 9]
    ∧ bookmarks db' = bookmarks test_db.
Proof.
  exists (fst (snd (mock_signup (mkAuthDto "new@test.com" "123456") (test_db, tt)))).
  destruct (signup_stores_the_hash unit mock_argon_hash mock_argon_verify
              mock_jwt_signAsync mock_config_get mock_validateSignupData
              user_findUnique_email
              (mkAuthDto "new@test.com" "123456") test_db
              (fst (snd (mock_signup (mkAuthDto "new@test.com" "123456") (test_db, tt))))
              tt tt {| access_token := "new@test.com.15m" |})
    as (e1 & h & e2 & _ & Hhash & _ & _ & Husers & Hbookmarks).
  - vm_compute; reflexivity.
  - split; [vm_compute; reflexivity|]. split; [|exact Hbookmarks].
    rewrite Husers. vm_compute in Hhash. injection Hhash as <- _. reflexivity.
Defined.

Lemma signup_token_failure_keeps_account_witness :
  ∃ db1,
    AuthService_signup unit mock_argon_hash mock_argon_verify failing_jwt_signAsync
      mock_config_get mock_validateSignupData user_findUnique_email
      (mkAuthDto "new@test.com" "123456") (test_db, tt)
    = (Thrown (Error "JsonWebTokenError"), (db1, tt))
    ∧ registered "new@test.com" db1.
Proof.
  apply (signup_token_failure_keeps_account unit mock_argon_hash mock_argon_verify
           failing_jwt_signAsync mock_config_get mock_validateSignupData
           user_findUnique_email
           (mkAuthDto "new@test.com" "123456") test_db tt tt tt tt
           "$argon2id$123456" (Error "JsonWebTokenError")).
  - intros (u & Hin & Hu). apply list_elem_of_singleton in Hin. subst u.
    discriminate.
  - intros u Hin. apply list_elem_of_singleton in Hin. subst u. reflexivity.
  - reflexivity.
  - reflexivity.
  - reflexivity.
Defined.

(** X14. The repository reads every P2002 of the storage as a taken
    email: when the id drawn from the sequence is already in the table,
    [create] throws [DuplicateEmailException] for the email at hand,
    taken or not, and stores nothing. *)
Theorem create_reads_key_collision_as_taken_email
    (email hash : string) (db : Db) (u : User.t) :
  u ∈ users db →
  User.id u = user_seq db →
  PrismaUserRepository_create email hash db
  = (Thrown (DuplicateEmailException ("Email " +:+ email +:+ " is already taken")),
     set_users db (users db) (user_seq db + 1)).
Proof.
  intros Hin Hid. unfold PrismaUserRepository_create, user_create. run.
  replace (existsb (λ u0, User.id u0 =? user_seq db) (users db)) with true.
  - by rewrite orb_true_r.
  - symmetry. apply existsb_exists. exists u.
    split; [by apply list_elem_of_In | by apply Z.eqb_eq].
Qed.

Lemma create_reads_key_collision_as_taken_email_witness :
  test_user ∈ users stale_db
  ∧ User.email test_user ≠ "new@test.com"
  ∧ PrismaUserRepository_create "new@test.com" "$argon2id$123456" stale_db
    = (Thrown (DuplicateEmailException "Email new@test.com is already taken"),
       set_users stale_db (users stale_db) 2).
Proof.
  split; [left|]. split; [discriminate|].
  apply (create_reads_key_collision_as_taken_email
           "new@test.com" "$argon2id$123456" stale_db test_user);
    [left | reflexivity].
Defined.

(** * Properties of the bookmark repository and service of the plan *)

Lemma toEntity_same (b : Bookmark.t) : Plan.toEntity b = b.
Proof. by destruct b. Qed.

Lemma findByIdAndUserId_find (K A : Z) (db : Db) :
  Plan.findByIdAndUserId K A db
  = (Plan.Fulfilled
       (List.find (matches {| where_id := Some K; where_userId := Some A |})
                  (bookmarks db)), db).
Proof.
  unfold Plan.findByIdAndUserId, Plan.await, Plan.of_promise, Plan.fulfil,
    bookmark_findFirst.
  destruct (List.find _ _) as [b|]; [by rewrite toEntity_same | done].
Qed.

Lemma matches_id (K : Z) (r : Bookmark.t) :
  matches {| where_id := Some K; where_userId := None |} r = (Bookmark.id r =? K).
Proof. unfold matches; simpl. apply andb_true_r. Qed.

Lemma NoDup_map_same {A B : Type} (g : A → B) (l : list A) (x y : A) :
  NoDup (List.map g l) → x ∈ l → y ∈ l → g x = g y → x = y.
Proof.
  induction l as [|z l IH]; simpl; intros Hl Hx Hy Hg; [inversion Hx|].
  apply NoDup_cons in Hl as [Hz Hl].
  apply elem_of_cons in Hx as [->|Hx]; apply elem_of_cons in Hy as [->|Hy]; auto.
  - exfalso. apply Hz. rewrite Hg. apply list_elem_of_In, in_map, list_elem_of_In, Hy.
  - exfalso. apply Hz. rewrite <- Hg. apply list_elem_of_In, in_map, list_elem_of_In, Hx.
Qed.

Section PlanOnPrisma.
Variable number_toString : Z → string.
Variable findByUserId : Z → Plan.Task Db (list Bookmark.t).
Variable create : Z → string → option string → string → Plan.Task Db Bookmark.t.
Variable update : Z → Z → EditBookmarkDto → Plan.Task Db Bookmark.t.
Context {validationService : Plan.IValidationService Db}.

Local Abbreviation repository :=
  (Plan.PrismaBookmarkRepository number_toString findByUserId create update).

(** X16. On the repository of the plan, the service's [getBookmarkById]
    either throws [NotFoundException('Bookmark not found')], and then no
    stored bookmark has both the id and the caller as owner, or returns a
    stored bookmark that has both; the database is left as it is. *)
Theorem plan_getBookmarkById_found_or_not (A K : Z) (db : Db) :
  (Plan.getBookmarkById (bookmarkRepository := repository) A K db
   = (Plan.Rejected (Plan.NotFoundException "Bookmark not found"), db)
   ∧ ∀ r, r ∈ bookmarks db → ¬ (Bookmark.id r = K ∧ Bookmark.userId r = A))
  ∨ (∃ b,
       Plan.getBookmarkById (bookmarkRepository := repository) A K db
       = (Plan.Fulfilled b, db)
       ∧ b ∈ bookmarks db ∧ Bookmark.id b = K ∧ Bookmark.userId b = A).
Proof.
  unfold Plan.getBookmarkById, Plan.await,
    Plan.bookmarkRepository_findByIdAndUserId, Plan.PrismaBookmarkRepository.
  rewrite findByIdAndUserId_find.
  destruct (List.find _ _) as [b|] eqn:Hfind.
  - right. exists b. split; [done|].
    apply find_some_elem_of in Hfind as [Hin Hm]. apply matches_both in Hm. tauto.
  - left. split; [done|]. intros r Hr Hboth.
    eapply find_none_elem_of in Hfind; [|done].
    apply matches_both in Hboth. congruence.
Qed.

(** X17. When no stored bookmark has both the id [K] and the owner [A],
    whether bookmark [K] exists or not, the repository's [delete] throws
    [UnauthorizedBookmarkAccessException], the service's
    [deleteBookmarkById] turns it into a [ForbiddenException] with the
    same message, which names both ids as the language prints them, and
    the database is left as it is. *)
Theorem plan_delete_not_owned (A K : Z) (db : Db) :
  (∀ r, r ∈ bookmarks db → ¬ (Bookmark.id r = K ∧ Bookmark.userId r = A)) →
  Plan.delete number_toString K A db
  = (Plan.Rejected
       (Plan.UnauthorizedBookmarkAccessException
          ("User " +:+ number_toString A +:+ " is not authorized to access bookmark "
           +:+ number_toString K)), db)
  ∧ Plan.deleteBookmarkById (bookmarkRepository := repository) A K db
    = (Plan.Rejected
         (Plan.Below
            (ForbiddenException
               ("User " +:+ number_toString A +:+ " is not authorized to access bookmark "
                +:+ number_toString K))), db).
Proof.
  intros H. apply no_match_find in H.
  unfold Plan.deleteBookmarkById, Plan.try_catch, Plan.await,
    Plan.bookmarkRepository_delete, Plan.PrismaBookmarkRepository.
  unfold Plan.delete, Plan.await. rewrite findByIdAndUserId_find, H. done.
Qed.

(** X18. On a table that stores no id twice, the repository's [delete]
    of a bookmark [K] that the caller owns returns, removes that bookmark,
    and keeps every other stored bookmark, of the caller and of any other
    account. *)
Theorem plan_delete_owned (A K : Z) (db : Db) (b : Bookmark.t) :
  NoDup (List.map Bookmark.id (bookmarks db)) →
  b ∈ bookmarks db →
  Bookmark.id b = K →
  Bookmark.userId b = A →
  ∃ db',
    Plan.delete number_toString K A db = (Plan.Fulfilled tt, db')
    ∧ (b ∉ bookmarks db')
    ∧ (∀ r, r ∈ bookmarks db → r ≠ b → r ∈ bookmarks db')
    ∧ (∀ r, r ∈ bookmarks db' → r ∈ bookmarks db).
Proof.
  intros Hdup Hin Hid Hown.
  set (w := {| where_id := Some K; where_userId := None |}).
  exists (set_bookmarks db (List.filter (λ x, negb (matches w x)) (bookmarks db))
                        (bookmark_seq db)).
  split; [|split; [|split]].
  - unfold Plan.delete, Plan.await. rewrite findByIdAndUserId_find.
    destruct (List.find _ _) as [b0|] eqn:Hfind.
    + unfold Plan.of_promise, bookmark_delete. fold w.
      destruct (List.find (matches w) (bookmarks db)) as [b1|] eqn:Hfind1; [done|].
      eapply find_none_elem_of in Hfind1; [|exact Hin].
      unfold w in Hfind1. rewrite matches_id in Hfind1.
      apply Z.eqb_neq in Hfind1. done.
    + eapply find_none_elem_of in Hfind; [|exact Hin].
      assert (matches {| where_id := Some K; where_userId := Some A |} b = true)
        by (by apply matches_both).
      congruence.
  - simpl. intros Hb. apply list_elem_of_In, List.filter_In in Hb as [_ Hb].
    unfold w in Hb. rewrite matches_id in Hb.
    apply negb_true_iff, Z.eqb_neq in Hb. done.
  - simpl. intros r Hr Hne. apply list_elem_of_In, List.filter_In.
    split; [by apply list_elem_of_In|].
    unfold w. rewrite matches_id. apply negb_true_iff, Z.eqb_neq.
    intros Hrid. apply Hne.
    apply (NoDup_map_same Bookmark.id (bookmarks db)); [done..|congruence].
  - simpl. intros r Hr. apply list_elem_of_In, List.filter_In in Hr as [Hr _].
    by apply list_elem_of_In.
Qed.
End PlanOnPrisma.

Section PlanService.
Context {S : Type}.
Context {bookmarkRepository : Plan.IBookmarkRepository S}.
Context {validationService : Plan.IValidationService S}.

(** X19. The two [catch] clauses of the service do not do the same:
    [deleteBookmarkById] awaits the repository and turns its
    [UnauthorizedBookmarkAccessException] into a [ForbiddenException];
    [editBookmarkById] returns the repository's task without awaiting it,
    so whatever that task throws, the domain exception included, leaves
    the service as it is. *)
Theorem plan_edit_not_translated_delete_translated
    (A K : Z) (dto : EditBookmarkDto) (s s1 s2 t t1 : S) (f : Plan.Failure)
    (message : string) :
  Plan.validationService_validateBookmarkData (EditBookmarkDto_object dto) s
  = (Plan.Fulfilled tt, s1) →
  Plan.bookmarkRepository_update K A dto s1 = (Plan.Rejected f, s2) →
  Plan.bookmarkRepository_delete K A t
  = (Plan.Rejected (Plan.UnauthorizedBookmarkAccessException message), t1) →
  Plan.editBookmarkById A K dto s = (Plan.Rejected f, s2)
  ∧ Plan.deleteBookmarkById A K t
    = (Plan.Rejected (Plan.Below (ForbiddenException message)), t1).
Proof.
  intros Hvalid Hupdate Hdelete. split.
  - unfold Plan.editBookmarkById, Plan.await, Plan.try_return.
    by rewrite Hvalid, Hupdate.
  - unfold Plan.deleteBookmarkById, Plan.try_catch, Plan.await.
    by rewrite Hdelete.
Qed.
End PlanService.

Lemma plan_delete_not_owned_witness :
  test_bookmark ∈ bookmarks test_db
  ∧ Bookmark.id test_bookmark = 1
  ∧ Plan.delete pretty 1 2 test_db
    = (Plan.Rejected
         (Plan.UnauthorizedBookmarkAccessException
            "User 2 is not authorized to access bookmark 1"), test_db)
  ∧ Plan.deleteBookmarkById (bookmarkRepository := Plan.mock_repository) 2 1 test_db
    = (Plan.Rejected
         (Plan.Below (ForbiddenException "User 2 is not authorized to access bookmark 1")),
       test_db).
Proof.
  split; [left|]. split; [reflexivity|].
  assert (∀ r, r ∈ bookmarks test_db → ¬ (Bookmark.id r = 1 ∧ Bookmark.userId r = 2))
    as Hnone.
  { intros r Hr [_ Howner]. apply list_elem_of_singleton in Hr. subst r.
    discriminate. }
  pose proof (plan_delete_not_owned pretty Plan.mock_findByUserId Plan.mock_create
                Plan.mock_update 2 1 test_db Hnone) as H.
  vm_compute in H. vm_compute. exact H.
Defined.

Lemma plan_delete_owned_witness :
  ∃ db',
    Plan.delete pretty 1 1 test_db = (Plan.Fulfilled tt, db')
    ∧ (test_bookmark ∉ bookmarks db')
    ∧ (∀ r, r ∈ bookmarks test_db → r ≠ test_bookmark → r ∈ bookmarks db')
    ∧ (∀ r, r ∈ bookmarks db' → r ∈ bookmarks test_db).
Proof.
  apply (plan_delete_owned pretty 1 1 test_db test_bookmark).
  - apply NoDup_singleton.
  - left.
  - reflexivity.
  - reflexivity.
Defined.

Lemma plan_edit_not_translated_delete_translated_witness :
  Plan.editBookmarkById (bookmarkRepository := Plan.mock_repository)
    (validationService := Plan.mock_validation) 2 1 test_edit_dto test_db
  = (Plan.Rejected
       (Plan.UnauthorizedBookmarkAccessException
          "User 2 is not authorized to access bookmark 1"), test_db)
  ∧ Plan.deleteBookmarkById (bookmarkRepository := Plan.mock_repository) 2 1 test_db
    = (Plan.Rejected
         (Plan.Below (ForbiddenException "User 2 is not authorized to access bookmark 1")),
       test_db).
Proof.
  apply (plan_edit_not_translated_delete_translated
           (bookmarkRepository := Plan.mock_repository)
           (validationService := Plan.mock_validation)
           2 1 test_edit_dto test_db test_db test_db test_db test_db);
    vm_compute; reflexivity.
Defined.
